(** * qbrt runtime provisioning: bin/postinstall.js, its second copy, and
      bin/postinstall-xulapp.js

    A shallow embedding of the postinstall scripts.  Values that the scripts
    read from the outside world (the platform, file contents, HTTP responses,
    exit codes of hdiutil, archive contents) are inputs of the model; the
    scripts' own variables, the directories they touch and the sequence of
    calls they make are the state. *)

From Stdlib Require Import String Ascii List ZArith Bool Lia.
From stdpp Require Import base option list gmap strings pretty.

Local Open Scope string_scope.
Set Warnings "-register-all".

(** ** JavaScript values that the scripts handle *)

(** What [JSON.parse] produces.  Numbers are modelled by integers.  An object
    keeps its properties in insertion order, each key once. *)
Inductive json : Type :=
| JNull
| JBool (b : bool)
| JNum (n : Z)
| JStr (s : string)
| JArr (items : list json)
| JObj (props : list (string * json)).

(** A property read yields a value or [undefined]; [None] is [undefined]. *)
Definition jsval : Type := option json.

Inductive error : Type :=
| SyntaxError (msg : string)
| TypeError (msg : string)
| ReferenceError (ident : string)
| Error_ (msg : string)
| SystemError (code : string) (target : string).

(** Completion of a synchronous piece of code. *)
Inductive completion (A : Type) : Type :=
| Normal (a : A)
| Throw (e : error).
Arguments Normal {A} a.
Arguments Throw {A} e.

(** [a === b] on values read out of two separately parsed documents:
    primitives compare by value, [undefined] equals [undefined], and two
    objects (or arrays) are distinct references, hence never equal. *)
Definition strict_eq (a b : jsval) : bool :=
  match a, b with
  | None, None => true
  | Some JNull, Some JNull => true
  | Some (JBool x), Some (JBool y) => Bool.eqb x y
  | Some (JNum x), Some (JNum y) => Z.eqb x y
  | Some (JStr x), Some (JStr y) => String.eqb x y
  | _, _ => false
  end.

Fixpoint lookup_prop (key : string) (props : list (string * json)) : jsval :=
  match props with
  | [] => None
  | (k, v) :: rest => if String.eqb k key then Some v else lookup_prop key rest
  end.

(** [v.key] for the two keys the scripts read ([buildid], [target_alias]):
    reading a property of [null] throws, a primitive or an array has no such
    property, an object yields what it holds. *)
Definition get_prop (v : json) (key : string) : completion jsval :=
  match v with
  | JNull => Throw (TypeError ("Cannot read property '" +:+ key +:+ "' of null"))
  | JObj props => Normal (lookup_prop key props)
  | _ => Normal None
  end.

(** The condition of postinstall.js lines 120-121 (part_000 lines 127-128):
    [current.buildid === old.buildid &&
     current.target_alias === old.target_alias]
    with JavaScript's left-to-right, short-circuit evaluation. *)
Definition isUpToDate (current old : json) : completion bool :=
  match get_prop current "buildid" with
  | Throw e => Throw e
  | Normal cb =>
    match get_prop old "buildid" with
    | Throw e => Throw e
    | Normal ob =>
      if strict_eq cb ob then
        match get_prop current "target_alias" with
        | Throw e => Throw e
        | Normal ct =>
          match get_prop old "target_alias" with
          | Throw e => Throw e
          | Normal ot => Normal (strict_eq ct ot)
          end
        end
      else Normal false
    end
  end.

(** A field as the data model types it: a string, or absent. *)
Definition string_or_absent (v : jsval) : Prop :=
  v = None \/ exists s, v = Some (JStr s).

(** ** Strings *)

Definition quote_char : ascii := "034"%char.
Definition backslash : ascii := "092"%char.
Definition line_feed : string := String "010"%char EmptyString.

(** [ToString] of a value read from a parsed document, as a template literal
    [`${v}`] computes it. *)
Fixpoint ToString_json (v : json) : string :=
  match v with
  | JNull => "null"
  | JBool true => "true"
  | JBool false => "false"
  | JNum n => pretty n
  | JStr s => s
  | JArr items =>
      (fix join (l : list json) : string :=
         match l with
         | [] => EmptyString
         | [x] => match x with JNull => EmptyString | _ => ToString_json x end
         | x :: rest =>
             (match x with JNull => EmptyString | _ => ToString_json x end)
               +:+ "," +:+ join rest
         end) items
  | JObj _ => "[object Object]"
  end.

Definition ToString (v : jsval) : string :=
  match v with
  | None => "undefined"
  | Some j => ToString_json j
  end.

(** A string used as a condition: the empty string is falsy. *)
Definition truthy_string (s : option string) : option string :=
  match s with
  | Some EmptyString => None
  | other => other
  end.

(** [location.replace(/\.installer\.exe$/, '.zip')]: the matcher tries the
    start positions from left to right; at a position the pattern matches when
    what remains of the input is exactly [.installer.exe].  The first match is
    replaced, the rest of the input is kept. *)
Fixpoint replace_installer_suffix (location : string) : string :=
  if String.eqb location ".installer.exe" then ".zip"
  else match location with
       | EmptyString => EmptyString
       | String c rest => String c (replace_installer_suffix rest)
       end.

(** The redirect target that [download] passes to its recursive call
    (postinstall.js lines 159-166). *)
Definition redirect_target (platform location : string) : string :=
  if String.eqb platform "win32" then replace_installer_suffix location
  else location.

(** ** Paths *)

Definition path : Type := list string.

(** [path.join(base, seg1, ...)]: a [..] segment steps out of the directory
    reached so far. *)
Definition path_join (base : path) (segments : list string) : path :=
  fold_left
    (fun acc seg => if String.eqb seg ".." then removelast acc else (acc ++ [seg])%list)
    segments base.

(** ** The world the scripts act on *)

(** An entry of the dist directory: a file, or a directory given by the files
    below it (keyed by path relative to the directory). *)
Inductive node : Type :=
| File (data : string)
| Dir (files : gmap path string).

Record response : Type := {
  headers_location : option string;      (* response.headers.location *)
  headers_content_type : option string;  (* response.headers['content-type'] *)
  body : string;
  body_error : option error              (* an 'error' event while the body is read *)
}.

Inductive get_result : Type :=
| Response (r : response)
| NetError (e : error).

Inductive spawn_result : Type :=
| Exited (code : option N)     (* 'exit' event; [None] is a null code (killed by a signal) *)
| SpawnError (e : error).      (* 'error' event *)

(** Values that the promises of the scripts are resolved with. *)
Inductive value : Type :=
| VUndefined
| VBool (b : bool)
| VResponse (r : response)
| VExitCode (code : option N).

Definition truthy (v : value) : bool :=
  match v with
  | VUndefined => false
  | VBool b => b
  | VResponse _ => true
  | VExitCode None => false
  | VExitCode (Some n) => negb (N.eqb n 0)
  end.

(** An exit code of zero. *)
Definition succeeded (code : option N) : bool :=
  match code with
  | Some n => N.eqb n 0
  | None => false
  end.

Definition truthy_json (v : jsval) : bool :=
  match v with
  | None | Some JNull => false
  | Some (JBool b) => b
  | Some (JNum n) => negb (Z.eqb n 0)
  | Some (JStr s) => negb (String.eqb s EmptyString)
  | Some (JArr _) | Some (JObj _) => true
  end.

Inductive event : Type :=
| Spinner (msg : string) (finished : bool)
| ConsoleLog (msg : string)
| ConsoleWarn (e : error)
| ConsoleError (e : error)
| EnsureDirSync (p : path)
| EnsureDir (p : path)
| MkdtempSync (prefix : path)
| MkdirSync (p : path)
| ReadFile (p : path)
| HttpsGet (url : string)
| Request (url : string)
| CreateWriteStream (p : path)
| StreamEnd
| WriteFile (p : path) (data : string)
| AppendFileSync (p : path) (data : string)
| Remove (p : path)
| RemoveSync (p : option path)
| RmdirSync (p : path)
| Decompress (source : option path) (destination : path)
| Rename (from to : path)
| RenameSync (from to : path)
| Copy (from to : path)
| CopySync (from to : path)
| Spawn (command : string) (args : list string)
| ExtractZip (archive dir : path)
| PlistWrite (p : path) (key val : string)
| ProcessExit
| UnhandledRejection (e : error).

(** How the process ended. *)
Inductive halted : Type :=
| Uncaught (e : error)   (* an exception nobody caught: Node prints it and exits *)
| ExitCalled             (* process.exit() *)
| Drained.               (* nothing left to run *)

Inductive settlement : Type :=
| Fulfilled (v : value)
| Rejected (e : error).

Record store : Type := {
  dist : gmap string node;        (* the entries of distDir *)
  tmp : option (gset string);     (* the entries of tempDir; [None]: no such directory *)
  filePath : option path;         (* let filePath *)
  fileStream : bool;              (* let fileStream: is it defined *)
  currentBrowserInfo : jsval;     (* let currentBrowserInfo / currentFirefoxInfo *)
  trace : list event;             (* the calls made so far, oldest first *)
  settled : list nat;             (* promises that are no longer pending *)
  remaining : nat -> nat;         (* Promise.all: members still pending *)
  next_promise : nat;
  status : option halted;
  probe : option settlement       (* outcome of the promise under observation *)
}.

Definition with_dist (d : gmap string node) (s : store) : store :=
  {| dist := d; tmp := tmp s; filePath := filePath s; fileStream := fileStream s;
     currentBrowserInfo := currentBrowserInfo s; trace := trace s;
     settled := settled s; remaining := remaining s;
     next_promise := next_promise s; status := status s; probe := probe s |}.
Definition with_tmp (t : option (gset string)) (s : store) : store :=
  {| dist := dist s; tmp := t; filePath := filePath s; fileStream := fileStream s;
     currentBrowserInfo := currentBrowserInfo s; trace := trace s;
     settled := settled s; remaining := remaining s;
     next_promise := next_promise s; status := status s; probe := probe s |}.
Definition with_filePath (p : option path) (s : store) : store :=
  {| dist := dist s; tmp := tmp s; filePath := p; fileStream := fileStream s;
     currentBrowserInfo := currentBrowserInfo s; trace := trace s;
     settled := settled s; remaining := remaining s;
     next_promise := next_promise s; status := status s; probe := probe s |}.
Definition with_fileStream (b : bool) (s : store) : store :=
  {| dist := dist s; tmp := tmp s; filePath := filePath s; fileStream := b;
     currentBrowserInfo := currentBrowserInfo s; trace := trace s;
     settled := settled s; remaining := remaining s;
     next_promise := next_promise s; status := status s; probe := probe s |}.
Definition with_info (v : jsval) (s : store) : store :=
  {| dist := dist s; tmp := tmp s; filePath := filePath s; fileStream := fileStream s;
     currentBrowserInfo := v; trace := trace s;
     settled := settled s; remaining := remaining s;
     next_promise := next_promise s; status := status s; probe := probe s |}.
Definition with_trace (t : list event) (s : store) : store :=
  {| dist := dist s; tmp := tmp s; filePath := filePath s; fileStream := fileStream s;
     currentBrowserInfo := currentBrowserInfo s; trace := t;
     settled := settled s; remaining := remaining s;
     next_promise := next_promise s; status := status s; probe := probe s |}.
Definition with_settled (l : list nat) (s : store) : store :=
  {| dist := dist s; tmp := tmp s; filePath := filePath s; fileStream := fileStream s;
     currentBrowserInfo := currentBrowserInfo s; trace := trace s;
     settled := l; remaining := remaining s;
     next_promise := next_promise s; status := status s; probe := probe s |}.
Definition with_remaining (f : nat -> nat) (s : store) : store :=
  {| dist := dist s; tmp := tmp s; filePath := filePath s; fileStream := fileStream s;
     currentBrowserInfo := currentBrowserInfo s; trace := trace s;
     settled := settled s; remaining := f;
     next_promise := next_promise s; status := status s; probe := probe s |}.
Definition with_next_promise (n : nat) (s : store) : store :=
  {| dist := dist s; tmp := tmp s; filePath := filePath s; fileStream := fileStream s;
     currentBrowserInfo := currentBrowserInfo s; trace := trace s;
     settled := settled s; remaining := remaining s;
     next_promise := n; status := status s; probe := probe s |}.
Definition with_status (h : option halted) (s : store) : store :=
  {| dist := dist s; tmp := tmp s; filePath := filePath s; fileStream := fileStream s;
     currentBrowserInfo := currentBrowserInfo s; trace := trace s;
     settled := settled s; remaining := remaining s;
     next_promise := next_promise s; status := h; probe := probe s |}.
Definition with_probe (o : option settlement) (s : store) : store :=
  {| dist := dist s; tmp := tmp s; filePath := filePath s; fileStream := fileStream s;
     currentBrowserInfo := currentBrowserInfo s; trace := trace s;
     settled := settled s; remaining := remaining s;
     next_promise := next_promise s; status := status s; probe := o |}.

(** The store a script starts from, given what is in distDir. *)
Definition initial_store (d : gmap string node) : store :=
  {| dist := d; tmp := None; filePath := None; fileStream := false;
     currentBrowserInfo := None; trace := []; settled := [];
     remaining := fun _ => 0; next_promise := 0; status := None; probe := None |}.

(** ** Run-to-completion tasks and the event loop *)

(** Result of running a piece of code inside one task. *)
Inductive res (A : Type) : Type :=
| Val (a : A)
| Exn (e : error)    (* it threw *)
| Stop.              (* it called process.exit() *)
Arguments Val {A} a.
Arguments Exn {A} e.
Arguments Stop {A}.

(** A task is a callback waiting to run.  Running it changes the store and may
    queue further tasks; the flag tells promise reactions (microtasks, [true])
    from callbacks of I/O (macrotasks, [false]). *)
Inductive task : Type :=
| Task (run : store -> res unit * store * list (bool * task)).

Definition M (A : Type) : Type := store -> res A * store * list (bool * task).

Definition ret {A} (a : A) : M A := fun s => (Val a, s, []).
Definition throw {A} (e : error) : M A := fun s => (Exn e, s, []).
Definition bind {A B} (m : M A) (f : A -> M B) : M B :=
  fun s =>
    match m s with
    | (Val a, s1, q1) => let '(r, s2, q2) := f a s1 in (r, s2, (q1 ++ q2)%list)
    | (Exn e, s1, q1) => (Exn e, s1, q1)
    | (Stop, s1, q1) => (Stop, s1, q1)
    end.

Notation "x <- m ;; k" := (bind m (fun x => k))
  (at level 100, m at next level, right associativity).
Notation "m ;; k" := (bind m (fun _ => k))
  (at level 100, right associativity).

Definition get {A} (f : store -> A) : M A := fun s => (Val (f s), s, []).
Definition modify (f : store -> store) : M unit := fun s => (Val tt, f s, []).
Definition emit (ev : event) : M unit :=
  modify (fun s => with_trace (trace s ++ [ev])%list s).
Definition lift {A} (c : completion A) : M A :=
  match c with
  | Normal a => ret a
  | Throw e => throw e
  end.

(** Queue a callback: [defer true] for a promise reaction, [defer false] for
    the callback of an I/O operation. *)
Definition defer (micro : bool) (m : M unit) : M unit :=
  fun s => (Val tt, s, [(micro, Task m)]).

Definition run_task (t : task) : M unit :=
  match t with Task run => run end.

Definition micros (q : list (bool * task)) : list task :=
  List.map snd (List.filter (fun bt : bool * task => fst bt) q).
Definition macros (q : list (bool * task)) : list task :=
  List.map snd (List.filter (fun bt : bool * task => negb (fst bt)) q).

(** The event loop: all pending promise reactions run before the next I/O
    callback; I/O callbacks run in the order in which the operations were
    started.  An exception that escapes a task ends the process.  [fuel]
    bounds the number of tasks. *)
Fixpoint event_loop (fuel : nat) (micro macro : list task) (s : store) : store :=
  match fuel with
  | O => s
  | S n =>
    let step (t : task) (micro' macro' : list task) :=
      match run_task t s with
      | (Val _, s1, q) => event_loop n (micro' ++ micros q)%list (macro' ++ macros q)%list s1
      | (Exn e, s1, _) => with_status (Some (Uncaught e)) s1
      | (Stop, s1, _) => with_status (Some ExitCalled) s1
      end in
    match micro, macro with
    | t :: micro', _ => step t micro' macro
    | [], t :: macro' => step t [] macro'
    | [], [] => with_status (Some Drained) s
    end
  end.

(** Run a script: its top-level code, then the event loop. *)
Definition run (fuel : nat) (script : M unit) (s : store) : store :=
  match script s with
  | (Val _, s1, q) => event_loop fuel (micros q) (macros q) s1
  | (Exn e, s1, _) => with_status (Some (Uncaught e)) s1
  | (Stop, s1, _) => with_status (Some ExitCalled) s1
  end.

(** ** Promises *)

(** A promise is given by what it does with the reactions registered on it:
    it arranges for one of them to be queued once it is settled. *)
Definition reaction (A : Type) : Type := A -> M unit.
Definition promise : Type := reaction value -> reaction error -> M unit.

(** What a [then] or [catch] callback returns. *)
Inductive returned : Type :=
| Return (v : value)
| ReturnPromise (p : promise).

(** [resolve] and [reject] of a promise: only the first call counts. *)
Definition settle_once {A} (id : nat) (k : reaction A) (a : A) : M unit :=
  fun s =>
    if existsb (Nat.eqb id) (settled s) then (Val tt, s, [])
    else (Val tt, with_settled (id :: settled s) s, [(true, Task (k a))]).

(** [new Promise(executor)]: the executor runs at once; if it throws, the
    promise is rejected.  Its return value is ignored. *)
Definition new_Promise (executor : reaction value -> reaction error -> M unit) : promise :=
  fun ok err s =>
    let id := next_promise s in
    let s1 := with_next_promise (S id) s in
    match executor (settle_once id ok) (settle_once id err) s1 with
    | (Exn e, s2, q) =>
        let '(r, s3, q') := settle_once id err e s2 in (r, s3, (q ++ q')%list)
    | other => other
    end.

Definition Promise_resolve (v : value) : promise :=
  fun ok _ => defer true (ok v).
Definition Promise_reject (e : error) : promise :=
  fun _ err => defer true (err e).

(** Settle the promise derived by [then]/[catch] from what the callback did. *)
Definition settle_from (callback : M returned) (ok : reaction value) (err : reaction error) : M unit :=
  fun s =>
    match callback s with
    | (Val (Return v), s1, q) => (Val tt, s1, (q ++ [(true, Task (ok v))])%list)
    | (Val (ReturnPromise p), s1, q) =>
        let '(r, s2, q2) := p ok err s1 in (r, s2, (q ++ q2)%list)
    | (Exn e, s1, q) => (Val tt, s1, (q ++ [(true, Task (err e))])%list)
    | (Stop, s1, q) => (Stop, s1, q)
    end.

(** [p.then(f)] and [p.catch(g)] *)
Definition then_ (p : promise) (f : value -> M returned) : promise :=
  fun ok err => p (fun v => settle_from (f v) ok err) err.
Definition catch_ (p : promise) (g : error -> M returned) : promise :=
  fun ok err => p ok (fun e => settle_from (g e) ok err).

(** [p.then(x)] where [x] is not a function: the promise passes through. *)
Definition then_nonfunction (p : promise) : promise := p.

(** A chain [p.then(f1).catch(g).then(f2)...], written link by link. *)
Inductive link : Type :=
| Then (f : value -> M returned)
| Catch (g : error -> M returned)
| ThenNonFunction.

Definition chain (p : promise) (links : list link) : promise :=
  fold_left
    (fun acc l =>
       match l with
       | Then f => then_ acc f
       | Catch g => catch_ acc g
       | ThenNonFunction => then_nonfunction acc
       end)
    links p.

(** [Promise.all(ps)]: fulfilled when every member is, rejected with the first
    rejection. *)
Definition Promise_all (ps : list promise) : promise :=
  fun ok err s =>
    let id := next_promise s in
    let s1 := with_remaining
                (fun i => if Nat.eqb i id then length ps else remaining s i)
                (with_next_promise (S id) s) in
    let member_done : reaction value := fun _ =>
      n <- get (fun s => remaining s id) ;;
      modify (fun s => with_remaining
                (fun i => if Nat.eqb i id then pred n else remaining s i) s) ;;
      if Nat.eqb n 1 then settle_once id ok VUndefined else ret tt in
    match ps with
    | [] => defer true (ok VUndefined) s1
    | _ =>
      fold_left
        (fun acc p => bind acc (fun _ => p member_done (settle_once id err)))
        ps (ret tt) s1
    end.

(** A promise nobody listens to: a rejection is reported (the Node releases
    of the scripts' time print a warning) and is otherwise lost. *)
Definition dropped (p : promise) : M unit :=
  p (fun _ => ret tt) (fun e => emit (UnhandledRejection e)).

(** Observe how a promise is settled. *)
Definition observed (p : promise) : M unit :=
  p (fun v => modify (with_probe (Some (Fulfilled v))))
    (fun e => modify (with_probe (Some (Rejected e)))).

(** ** Platform profile (postinstall.js lines 33-88, part_000 lines 33-95) *)

Definition DOWNLOAD_LOCALE : string := "en-US".

(** The switch over [process.platform] and [process.arch].  The outer switch
    has no default case: for any other platform the function returns
    [undefined]. *)
Definition DOWNLOAD_OS (platform arch : string) : completion (option string) :=
  if String.eqb platform "win32" then
    if String.eqb arch "ia32" then Normal (Some "win")
    else if String.eqb arch "x64" then Normal (Some "win64")
    else Throw (Error_ ("unsupported Windows architecture " +:+ arch))
  else if String.eqb platform "linux" then
    if String.eqb arch "ia32" then Normal (Some "linux")
    else if String.eqb arch "x64" then Normal (Some "linux64")
    else Throw (Error_ ("unsupported Linux architecture " +:+ arch))
  else if String.eqb platform "darwin" then Normal (Some "osx")
  else Normal None.

Definition nightly_10_01_59 : string :=
  "https://archive.mozilla.org/pub/firefox/nightly/2017/04/2017-04-02-10-01-59-mozilla-central/firefox-55.0a1."
  +:+ DOWNLOAD_LOCALE.
Definition nightly_03_02_02 : string :=
  "https://archive.mozilla.org/pub/firefox/nightly/2017/04/2017-04-02-03-02-02-mozilla-central/firefox-55.0a1."
  +:+ DOWNLOAD_LOCALE.

Definition DOWNLOAD_INFO_URLS : gmap string string :=
  list_to_map [
    ("linux", nightly_10_01_59 +:+ ".linux-i686.json");
    ("linux64", nightly_10_01_59 +:+ ".linux-x86_64.json");
    ("osx", nightly_03_02_02 +:+ ".mac.json");
    ("win", nightly_03_02_02 +:+ ".win32.json");
    ("win64", nightly_03_02_02 +:+ ".win64.json") ].

Definition DOWNLOAD_BIN_URLS : gmap string string :=
  list_to_map [
    ("linux", nightly_10_01_59 +:+ ".linux-i686.tar.bz2");
    ("linux64", nightly_10_01_59 +:+ ".linux-x86_64.tar.bz2");
    ("mac", nightly_03_02_02 +:+ ".mac.dmg");
    ("win", nightly_03_02_02 +:+ ".win32.installer.exe");
    ("win64", nightly_03_02_02 +:+ ".win64.installer.exe") ].

Definition FILE_EXTENSIONS : gmap string string :=
  list_to_map [
    ("application/x-apple-diskimage", "dmg");
    ("application/zip", "zip");
    ("application/x-tar", "tar.bz2") ].

(** [table[key]] where the key may be [undefined]: the property name is then
    the string [undefined]. *)
Definition index (table : gmap string string) (key : option string) : option string :=
  table !! ToString (JStr <$> key).

(** [DOWNLOAD_BIN_URLS[DOWNLOAD_OS] || `https://download.mozilla.org/...`] *)
Definition DOWNLOAD_URL_for (os : option string) : string :=
  match truthy_string (index DOWNLOAD_BIN_URLS os) with
  | Some url => url
  | None =>
      "https://download.mozilla.org/?product=firefox-nightly-latest-ssl&lang="
      +:+ DOWNLOAD_LOCALE +:+ "&os=" +:+ ToString (JStr <$> os)
  end.

Record profile : Type := {
  download_os : option string;        (* DOWNLOAD_OS *)
  DOWNLOAD_INFO_URL : option string;  (* undefined when the table has no entry *)
  DOWNLOAD_URL : string;
  distDir : path;
  installDir : path;
  resourcesDir : path;
  executableDir : path;
  runtimeInfo : path;
  browserJAR : path
}.

Definition is_darwin (platform : string) : bool := String.eqb platform "darwin".

Definition installDir_in (dist_dir : path) (platform : string) : path :=
  path_join dist_dir [if is_darwin platform then "Runtime.app" else "runtime"].
Definition resourcesDir_in (install_dir : path) (platform : string) : path :=
  if is_darwin platform then path_join install_dir ["Contents"; "Resources"]
  else install_dir.
Definition executableDir_in (install_dir : path) (platform : string) : path :=
  if is_darwin platform then path_join install_dir ["Contents"; "MacOS"]
  else install_dir.

(** The pairs for which [DOWNLOAD_OS] has a value. *)
Definition supported (platform arch : string) : bool :=
  (String.eqb platform "win32" || String.eqb platform "linux")
    && (String.eqb arch "ia32" || String.eqb arch "x64")
  || String.eqb platform "darwin".

(** Every field of a profile holds a value. *)
Definition populated (p : profile) : Prop :=
  is_Some (download_os p) /\ is_Some (truthy_string (DOWNLOAD_INFO_URL p)) /\
  DOWNLOAD_URL p <> EmptyString /\
  distDir p <> [] /\ installDir p <> [] /\ resourcesDir p <> [] /\
  executableDir p <> [] /\ runtimeInfo p <> [] /\ browserJAR p <> [].

(** ** Inputs from the outside world *)

Record env : Type := {
  platform : string;                     (* process.platform *)
  arch : string;                         (* process.arch *)
  dirname : path;                        (* __dirname *)
  tmpdir : path;                         (* the directory fs.mkdtempSync creates *)
  JSON_parse : string -> option json;    (* [None]: JSON.parse throws a SyntaxError *)
  JSON_stringify : json -> string;       (* JSON.stringify(v, null, 2) *)
  http : string -> get_result;           (* what a GET of the URL yields *)
  archive_at : path -> completion (gmap string node);
                                         (* the top-level entries decompress finds in a file *)
  hdiutil_attach : spawn_result;
  hdiutil_detach : spawn_result;
  volume : gmap string node;             (* what the disk image holds *)
  fs_ensureDir : path -> option error;   (* [Some e]: the call fails with e *)
  fs_copy : path -> path -> option error;
  extract_zip : path -> path -> option error;
  plist_read : path -> option error
}.

Definition show_path (p : path) : string := String.concat "/" p.
Definition show_optional_path (p : option path) : string :=
  match p with
  | Some p => show_path p
  | None => "undefined"
  end.

(** chalk.green.bold / chalk.red.bold: colour codes are left out. *)
Definition check_mark : string := "✓ ".
Definition cross_mark : string := "✗ ".

Definition spinner (msg : string) (finished : bool) : M unit := emit (Spinner msg finished).
Definition exit {A} : M A := fun s => (Stop, s, []).

(** A promise for an I/O operation: the call is made now, its outcome arrives
    in a later task. *)
Definition io_promise (call : event) (completes : M value) : promise :=
  fun ok err =>
    emit call ;;
    defer false (fun s =>
      match completes s with
      | (Val v, s1, q) => (Val tt, s1, (q ++ [(true, Task (ok v))])%list)
      | (Exn e, s1, q) => (Val tt, s1, (q ++ [(true, Task (err e))])%list)
      | (Stop, s1, q) => (Stop, s1, q)
      end).

Definition fail_with (o : option error) : M value :=
  match o with
  | None => ret VUndefined
  | Some e => throw e
  end.

(** *** Operations on the entries of distDir *)

(** The directory listings are finite maps and sets; these are the operations
    the scripts need on them. *)
Definition entry (name : string) (dir : gmap string node) : option node := dir !! name.
Definition drop_entry (name : string) (dir : gmap string node) : gmap string node :=
  delete name dir.
Definition put_entry (name : string) (n : node) (dir : gmap string node)
    : gmap string node := <[name := n]> dir.
Definition add_name (name : string) (names : gset string) : gset string :=
  names ∪ {[name]}.
Definition remove_name (name : string) (names : gset string) : gset string :=
  names ∖ {[name]}.
Definition has_name (name : string) (names : gset string) : bool :=
  bool_decide (name ∈ names).
Definition no_names (names : gset string) : bool := bool_decide (names = ∅).

(** fs.remove / fs.removeSync of an entry: like rm -rf, no error if absent. *)
Definition remove_entry (name : string) : M unit :=
  modify (fun s => with_dist (drop_entry name (dist s)) s).

(** Writing one archive entry over what is on disk: files of a directory are
    added to the directory or overwrite the files of the same path, a file
    overwrites a file.  An entry whose kind differs from what is on disk is
    not written. *)
Definition write_entry (new old : node) : option node :=
  match new, old with
  | File d, File _ => Some (File d)
  | Dir n, Dir o => Some (Dir (n ∪ o))
  | _, _ => Some old
  end.

Definition kind_clash (new old : node) : bool :=
  match new, old with
  | File _, File _ | Dir _, Dir _ => false
  | _, _ => true
  end.

Definition clash_at (disk : gmap string node) (name : string) (new : node) : bool :=
  match entry name disk with
  | Some old => kind_clash new old
  | None => false
  end.

Definition clashes (archive disk : gmap string node) : bool :=
  bool_decide (map_Exists (fun name new => clash_at disk name new = true) archive).

Definition expand (archive disk : gmap string node) : gmap string node :=
  union_with write_entry archive disk.

Definition can_replace (n : node) (target : option node) : bool :=
  match target, n with
  | None, _ => true
  | Some (File _), File _ => true
  | Some (Dir files), Dir _ => bool_decide (files = ∅)
  | _, _ => false
  end.

(** fs.rename / fs.renameSync of one entry of distDir to another name: the
    source must exist; an existing target is replaced only by an entry of the
    same kind, a directory only when it is empty. *)
Definition rename_entry (from to : string) : M unit :=
  disk <- get dist ;;
  match entry from disk with
  | None => throw (SystemError "ENOENT" from)
  | Some n =>
      if can_replace n (entry to disk)
      then modify (with_dist (put_entry to n (drop_entry from disk)))
      else throw (SystemError "ENOTEMPTY" to)
  end.

(** fs.readFile(p, callback) for a file [name] of distDir. *)
Definition fs_readFile (p : path) (name : string)
    (callback : completion string -> M unit) : M unit :=
  emit (ReadFile p) ;;
  defer false (
    found <- get (fun s => entry name (dist s)) ;;
    callback (match found with
              | Some (File data) => Normal data
              | Some (Dir _) => Throw (SystemError "EISDIR" (show_path p))
              | None => Throw (SystemError "ENOENT" (show_path p))
              end)).

(** fs.writeFile(p, data) without a callback, for a file [name] of distDir. *)
Definition fs_writeFile (p : path) (name : string) (data : string) : M unit :=
  emit (WriteFile p data) ;;
  defer false (
    modify (fun s =>
      match entry name (dist s) with
      | Some (Dir _) => s
      | _ => with_dist (put_entry name (File data) (dist s)) s
      end)).

Section primitives.
Context (E : env).

(** https.get(url, on_response).on('error', on_error) *)
Definition https_get (url : string) (on_response : response -> M unit)
    (on_error : reaction error) : M unit :=
  emit (HttpsGet url) ;;
  defer false (match http E url with
               | Response r => on_response r
               | NetError e => on_error e
               end).

(** decompress(source, destination), destination being distDir.  Without an
    input the module returns a rejected promise. *)
Definition decompress (source : option path) (destination : path) : promise :=
  match source with
  | None => fun ok err =>
      emit (Decompress source destination) ;;
      Promise_reject (TypeError "Input file required") ok err
  | Some file =>
      io_promise (Decompress source destination)
        (archive <- lift (archive_at E file) ;;
         disk <- get dist ;;
         modify (with_dist (expand archive disk)) ;;
         if clashes archive disk
         then throw (SystemError "EEXIST" (show_path destination))
         else ret VUndefined)
  end.

(** spawn(command, args) with its 'exit' and 'error' listeners. *)
Definition spawn (command : string) (args : list string) (outcome : spawn_result)
    (effect : M unit) (on_exit : reaction value) (on_error : reaction error) : M unit :=
  emit (Spawn command args) ;;
  defer false (match outcome with
               | Exited code =>
                   (if succeeded code then effect else ret tt) ;;
                   on_exit (VExitCode code)
               | SpawnError e => on_error e
               end).

(** fs.copySync / fs.copy of files that the model does not keep: the call is
    recorded and fails when the environment says so. *)
Definition copySync (from to : path) : M unit :=
  emit (CopySync from to) ;;
  match fs_copy E from to with
  | None => ret tt
  | Some e => throw e
  end.

Definition pify_copy (from to : path) : promise :=
  io_promise (Copy from to) (fail_with (fs_copy E from to)).

Definition pify_ensureDir (p : path) : promise :=
  io_promise (EnsureDir p) (fail_with (fs_ensureDir E p)).

Definition pify_extract (archive dir : path) : promise :=
  io_promise (ExtractZip archive dir) (fail_with (extract_zip E archive dir)).
End primitives.

(** ** bin/postinstall-xulapp.js *)

Module XulApp.
Section script.
Context (E : env).

Definition OPENVR_ENABLED : bool := true.
Definition OPENVR_URL : string :=
  "https://github.com/ValveSoftware/openvr/raw/v1.0.6/bin/win64/openvr_api.dll".
Definition distDir : path := path_join (dirname E) [".."; "dist"; platform E].
Definition installDir : path := installDir_in distDir (platform E).
Definition resourcesDir : path := resourcesDir_in installDir (platform E).
Definition openvrPath : path := path_join resourcesDir ["qbrt"; "openvr_api.dll"].

(** The identifiers that the module binds (its requires, its constants and
    the names every Node module receives), with the value of those that are
    string constants. *)
Definition bindings : list (string * option string) :=
  [ ("chalk", None); ("cli", None); ("fs", None); ("path", None); ("pify", None);
    ("request", None); ("OPENVR_ENABLED", None); ("OPENVR_URL", Some OPENVR_URL);
    ("distDir", None); ("installDir", None); ("resourcesDir", None);
    ("openvrPath", None); ("exports", None); ("require", None); ("module", None);
    ("__filename", None); ("__dirname", None) ].

(** Evaluating an identifier: one that is not bound throws. *)
Definition identifier (name : string) : M (option string) :=
  match List.find (fun b => String.eqb (fst b) name) bindings with
  | Some (_, v) => ret v
  | None => throw (ReferenceError name)
  end.

Definition files : list string :=
  [ "application.ini"; "chrome"; "chrome.manifest"; "components"; "defaults";
    "devtools.manifest"; "modules" ].

(** The executor of the last promise of [install] (lines 56-73). *)
Definition openvr_executor (enabled : bool) (targetDir : path)
    (resolve : reaction value) (reject : reaction error) : M unit :=
  if negb enabled then resolve VUndefined
  else
    url <- identifier "OPENVR_DLL_URL" ;;
    let url := default "[object Object]" url in
    emit (Request url) ;;
    emit (CreateWriteStream openvrPath) ;;
    defer false
      (match http E url with
       | NetError e => reject e
       | Response r =>
           match body_error r with
           | Some e => reject e
           | None =>
               defer false
                 (emit (AppendFileSync
                          (path_join targetDir ["defaults"; "preferences"; "prefs.js"])
                          (line_feed +:+ "pref('gfx.vr.openvr-runtime', '"
                           +:+ show_path openvrPath +:+ "');" +:+ line_feed)) ;;
                  resolve VUndefined)
           end
       end).

(** exports.install, with the feature flag as a parameter. *)
Definition install_with (enabled : bool) : promise :=
  let sourceDir := path_join (dirname E) [".."] in
  let targetDir := path_join resourcesDir ["qbrt"] in
  chain (pify_ensureDir E targetDir)
    [ Then (fun _ => ret (ReturnPromise (Promise_all
        (List.map (fun file => pify_copy E (path_join sourceDir [file])
                                             (path_join targetDir [file])) files))));
      Then (fun _ => ret (ReturnPromise (new_Promise (openvr_executor enabled targetDir)))) ].

Definition install : promise := install_with OPENVR_ENABLED.

(** Lines 77-87: the module run as a script ([require.main === module]). *)
Definition main (run_as_script : bool) : M unit :=
  if run_as_script then
    spinner "  Installing XUL app…" false ;;
    dropped
      (chain install
         [ Then (fun _ =>
             spinner (check_mark +:+ "Installing XUL app… done!") true ;;
             ret (Return VUndefined));
           Catch (fun error =>
             spinner (cross_mark +:+ "Installing XUL app… failed!") true ;;
             emit (ConsoleError error) ;;
             ret (Return VUndefined)) ])
  else ret tt.
End script.
End XulApp.

(** ** bin/postinstall.js *)

Module Postinstall.
Section script.
Context (E : env).

(** Lines 33-88: the constants.  Nothing here touches the file system or
    the network; [DOWNLOAD_OS] may throw. *)
Definition prelude : M profile :=
  os <- lift (DOWNLOAD_OS (platform E) (arch E)) ;;
  let distDir := path_join (dirname E) [".."; "dist"; platform E] in
  let installDir := installDir_in distDir (platform E) in
  let resourcesDir := resourcesDir_in installDir (platform E) in
  ret {| download_os := os;
         DOWNLOAD_INFO_URL := index DOWNLOAD_INFO_URLS os;
         DOWNLOAD_URL := DOWNLOAD_URL_for os;
         distDir := distDir;
         installDir := installDir;
         resourcesDir := resourcesDir;
         executableDir := executableDir_in installDir (platform E);
         runtimeInfo := path_join distDir ["runtime-info.json"];
         browserJAR := path_join resourcesDir ["browser"; "omni.ja"] |}.

Definition tempDir : path := tmpdir E.
Definition mountPoint : path := path_join tempDir ["volume"].

(** `${currentBrowserInfo.key}` *)
Definition info_field (key : string) : M string :=
  info <- get currentBrowserInfo ;;
  match info with
  | None => throw (TypeError ("Cannot read property '" +:+ key +:+ "' of undefined"))
  | Some j => v <- lift (get_prop j key) ;; ret (ToString v)
  end.

(** Lines 100-134: the promise that checks for an update.  [response] is
    the response object itself, so [JSON.parse] is applied to its string
    form. *)
Definition checkForUpdate (pf : profile) : promise :=
  new_Promise (fun resolve reject =>
    spinner "  Checking runtime…" false ;;
    match truthy_string (DOWNLOAD_INFO_URL pf) with
    | Some url =>
        fs_readFile (runtimeInfo pf) "runtime-info.json" (fun read =>
          (match read with
           | Throw _ => resolve (VBool false)
           | Normal _ => ret tt
           end) ;;
          let text := match read with Normal data => data | Throw _ => "{}" end in
          oldFirefoxInfo <- match JSON_parse E text with
                            | Some v => ret v
                            | None => throw (SyntaxError text)
                            end ;;
          https_get E url (fun response =>
            modify (with_info (Some (JObj []))) ;;
            match JSON_parse E "[object Object]" with
            | None => reject (SyntaxError "[object Object]")
            | Some current =>
                modify (with_info (Some current)) ;;
                same <- lift (isUpToDate current oldFirefoxInfo) ;;
                if same then resolve (VBool true)
                else (* Continue to download. *) resolve VUndefined
            end) reject)
    | None => resolve VUndefined
    end).

(** Lines 156-172: [download(url)].  The script follows redirects without a
    bound; [redirects] bounds them in the model. *)
Fixpoint download (redirects : nat) (resolve : reaction value)
    (reject : reaction error) (url : string) : M unit :=
  https_get E url (fun response =>
    match truthy_string (headers_location response) with
    | Some location =>
        match redirects with
        | S n => download n resolve reject (redirect_target (platform E) location)
        | O => ret tt
        end
    | None => resolve (VResponse response)
    end) reject.

(** Lines 153-199: [downloadRuntime()]. *)
Definition downloadRuntime (pf : profile) (redirects : nat) : promise :=
  chain
    (new_Promise (fun resolve reject =>
       spinner "  Downloading runtime…" false ;;
       download redirects resolve reject (DOWNLOAD_URL pf)))
    [ Then (fun v =>
        match v with
        | VResponse response =>
            let extension := index FILE_EXTENSIONS (headers_content_type response) in
            let file := "runtime." +:+ ToString (JStr <$> extension) in
            modify (with_filePath (Some (path_join tempDir [file]))) ;;
            emit (CreateWriteStream (path_join tempDir [file])) ;;
            modify (fun s => with_tmp (add_name file <$> tmp s) s) ;;
            modify (with_fileStream true) ;;
            ret (ReturnPromise (new_Promise (fun resolve reject =>
              defer false
                (match body_error response with
                 | None =>
                     (* fileStream 'finish' *)
                     info <- get currentBrowserInfo ;;
                     (match info with
                      | Some j =>
                          if truthy_json info
                          then fs_writeFile (runtimeInfo pf) "runtime-info.json"
                                 (JSON_stringify E j +:+ line_feed)
                          else ret tt
                      | None => ret tt
                      end) ;;
                     resolve VUndefined
                 | Some e => reject e
                 end))))
        | _ => throw (TypeError "Cannot read property 'headers'")
        end);
      Then (fun _ =>
        spinner (check_mark +:+ "Downloading runtime… done!") true ;;
        ret (Return VUndefined));
      Catch (fun error =>
        spinner (cross_mark +:+ "Downloading runtime… failed!") true ;;
        emit (ConsoleError error) ;;
        stream <- get fileStream ;;
        (if stream then emit StreamEnd else ret tt) ;;
        ret (Return VUndefined)) ].

(** Lines 135-146: the callback that follows the check. *)
Definition after_check (pf : profile) (redirects : nat) (isRuntimeUpToDate : value)
    : M returned :=
  if truthy isRuntimeUpToDate then
    buildid <- info_field "buildid" ;;
    alias <- info_field "target_alias" ;;
    info <- get currentBrowserInfo ;;
    spinner (check_mark +:+ "Checking runtime… done! Already using latest version (build ID: "
             +:+ buildid +:+ "; platform: " +:+ alias +:+ ").") (truthy_json info) ;;
    ret (ReturnPromise (Promise_resolve VUndefined))
  else
    buildid <- info_field "buildid" ;;
    alias <- info_field "target_alias" ;;
    info <- get currentBrowserInfo ;;
    spinner (check_mark +:+ "Checking runtime… done! New version available for download (build ID: "
             +:+ buildid +:+ "; platform: " +:+ alias +:+ ").") (truthy_json info) ;;
    ret (ReturnPromise (downloadRuntime pf redirects)).

(** Lines 148-151. *)
Definition check_failed (error : error) : M returned :=
  spinner (cross_mark +:+ "Checking runtime… failed!") true ;;
  emit (ConsoleError error) ;;
  ret (Return VUndefined).

Definition show_exit_code (v : value) : string :=
  match v with
  | VExitCode (Some n) => pretty n
  | VExitCode None => "null"
  | VBool true => "true"
  | VBool false => "false"
  | VUndefined => "undefined"
  | VResponse _ => "[object Object]"
  end.

(** fs.copySync(mountPoint/FirefoxNightly.app, distDir/Runtime.app): the
    source exists when the volume is mounted and holds the bundle. *)
Definition copy_bundle (source destination : path) : M unit :=
  emit (CopySync source destination) ;;
  mounted <- get (fun s => match tmp s with
                           | Some names => has_name "volume" names
                           | None => false
                           end) ;;
  match (if mounted : bool then entry "FirefoxNightly.app" (volume E) else None) with
  | None => throw (SystemError "ENOENT" (show_path source))
  | Some bundle =>
      modify (fun s => with_dist (expand (put_entry "Runtime.app" bundle ∅) (dist s)) s)
  end.

(** Lines 201-272: the function given to [new Promise] for installRuntime.
    It takes no parameters; what it returns is a promise that nobody
    listens to. *)
Definition installRuntime_executor (pf : profile) : M unit :=
  spinner "  Installing runtime…" false ;;
  if String.eqb (platform E) "win32" then
    source <- get filePath ;;
    let destination := distDir pf in
    dropped
      (chain
         (io_promise (Remove (path_join destination ["runtime"]))
            (remove_entry "runtime" ;; ret VUndefined))
         [ Then (fun _ => ret (ReturnPromise (decompress E source destination)));
           Then (fun _ => ret (ReturnPromise
             (io_promise (Rename (path_join destination ["firefox"])
                                 (path_join destination ["runtime"]))
                (rename_entry "firefox" "runtime" ;; ret VUndefined)))) ])
  else if String.eqb (platform E) "darwin" then
    dropped
      (chain
         (new_Promise (fun resolve reject =>
            image <- get filePath ;;
            spawn "hdiutil"
              [ "attach"; show_optional_path image; "-mountpoint";
                show_path mountPoint; "-nobrowse"; "-quiet" ]
              (hdiutil_attach E)
              (modify (fun s => with_tmp (add_name "volume" <$> tmp s) s))
              resolve reject))
         [ Then (fun exitCode =>
             if truthy exitCode then
               throw (Error_ ("'hdiutil attach' exited with code " +:+ show_exit_code exitCode))
             else
               let source := path_join mountPoint ["FirefoxNightly.app"] in
               let destination := path_join (distDir pf) ["Runtime.app"] in
               emit (RemoveSync (Some destination)) ;;
               remove_entry "Runtime.app" ;;
               copy_bundle source destination ;;
               ret (Return VUndefined));
           Then (fun _ => ret (ReturnPromise (new_Promise (fun resolve reject =>
             spawn "hdiutil" [ "detach"; show_path mountPoint; "-quiet" ]
               (hdiutil_detach E)
               (modify (fun s => with_tmp (remove_name "volume" <$> tmp s) s))
               resolve reject))));
           Then (fun exitCode =>
             if truthy exitCode then
               throw (Error_ ("'hdiutil detach' exited with code " +:+ show_exit_code exitCode))
             else ret (Return VUndefined)) ])
  else if String.eqb (platform E) "linux" then
    source <- get filePath ;;
    let destination := distDir pf in
    emit (RemoveSync (Some (path_join destination ["runtime"]))) ;;
    remove_entry "runtime" ;;
    dropped
      (chain (decompress E source destination)
         [ Then (fun _ =>
             emit (RenameSync (path_join destination ["firefox"])
                              (path_join destination ["runtime"])) ;;
             rename_entry "firefox" "runtime" ;;
             ret (Return VUndefined)) ])
  else ret tt.

(** Lines 276-290: expand the browser's omni.ja under qbrt/browser. *)
Definition expand_browser_jar (pf : profile) (_ : value) : M returned :=
  let targetDir := path_join (resourcesDir pf) ["qbrt"; "browser"] in
  ret (ReturnPromise (pify_extract E (browserJAR pf) targetDir)).

(** Lines 291-305: copy the devtools preference files. *)
Definition copy_pref_files (pf : profile) (_ : value) : M returned :=
  let sourceDir := path_join (resourcesDir pf) ["qbrt"; "browser"; "defaults"; "preferences"] in
  let targetDir := path_join (resourcesDir pf) ["qbrt"; "defaults"; "preferences"] in
  let prefFiles := ["debugger.js"; "devtools.js"] in
  fold_left
    (fun done file =>
       done ;; copySync E (path_join sourceDir [file]) (path_join targetDir [file]))
    prefFiles (ret tt) ;;
  ret (Return VUndefined).

(** Lines 306-332: copy and configure the stub executable. *)
Definition install_launcher (pf : profile) (_ : value) : M returned :=
  (if String.eqb (platform E) "win32" then
     copySync E (path_join (dirname E) [".."; "launcher.bat"])
                (path_join (executableDir pf) ["launcher.bat"])
   else if String.eqb (platform E) "darwin" then
     copySync E (path_join (dirname E) [".."; "launcher.sh"])
                (path_join (executableDir pf) ["launcher.sh"]) ;;
     let plistFile := path_join (installDir pf) ["Contents"; "Info.plist"] in
     (match plist_read E plistFile with
      | Some e => throw e
      | None => emit (PlistWrite plistFile "CFBundleExecutable" "launcher.sh")
      end)
   else if String.eqb (platform E) "linux" then
     copySync E (path_join (dirname E) [".."; "launcher.sh"])
                (path_join (executableDir pf) ["launcher.sh"])
   else ret tt) ;;
  ret (Return VUndefined).

(** Lines 336-342. *)
Definition setup_failed (error : error) : M returned :=
  spinner (cross_mark +:+ "Setting up runtime… failed!") true ;;
  emit (ConsoleError error) ;;
  stream <- get fileStream ;;
  (if stream then emit StreamEnd else ret tt) ;;
  ret (Return VUndefined).

(** Lines 343-351: clean up.  fs.removeSync refuses a missing path;
    fs.rmdirSync removes an empty directory only. *)
Definition cleanup (_ : value) : M returned :=
  file <- get filePath ;;
  emit (RemoveSync file) ;;
  (match file with
   | None => throw (Error_ "rimraf: missing path")
   | Some p =>
       modify (fun s => with_tmp (remove_name (List.last p EmptyString) <$> tmp s) s)
   end) ;;
  emit (RmdirSync tempDir) ;;
  entries <- get tmp ;;
  (match entries with
   | None => throw (SystemError "ENOENT" (show_path tempDir))
   | Some names =>
       if no_names names then modify (with_tmp None)
       else throw (SystemError "ENOTEMPTY" (show_path tempDir))
   end) ;;
  emit ProcessExit ;;
  exit.

(** Lines 201-351: the value of [installRuntime], a promise. *)
Definition installRuntime (pf : profile) : promise :=
  chain
    (new_Promise (fun _ _ => installRuntime_executor pf))
    [ Then (fun _ => ret (ReturnPromise (XulApp.install E)));
      Then (expand_browser_jar pf);
      Then (copy_pref_files pf);
      Then (install_launcher pf);
      Then (fun _ =>
        spinner (check_mark +:+ "Setting up runtime… done!") true ;;
        ret (Return VUndefined));
      Catch setup_failed;
      Then cleanup ].

(** The script.  Both [downloadRuntime] and [installRuntime] are declared
    with [var] below the first chain: when [.then(installRuntime)] is
    evaluated (line 147) the variable still holds [undefined], and
    [downloadRuntime] is first called from a callback, after its
    assignment. *)
Definition main (redirects : nat) : M unit :=
  pf <- prelude ;;
  spinner "  Setting up runtime…" false ;;
  emit (EnsureDirSync (distDir pf)) ;;
  emit (MkdtempSync tempDir) ;;
  modify (with_tmp (Some ∅)) ;;
  modify (with_info (Some (JObj []))) ;;
  dropped
    (chain (checkForUpdate pf)
       [ Then (after_check pf redirects);
         ThenNonFunction;   (* .then(installRuntime), installRuntime being undefined *)
         Catch check_failed ]) ;;
  dropped (installRuntime pf).

(** Lines 100-151: the first statement of the script, the check and what is
    chained on it, as [main] starts it. *)
Definition check_chain (pf : profile) (redirects : nat) : promise :=
  chain (checkForUpdate pf)
    [ Then (after_check pf redirects);
      ThenNonFunction;
      Catch check_failed ].
End script.
End Postinstall.

(** ** The second copy of the script (src/unnamed/part_000) *)

Module Part000.
Section script.
Context (E : env).

(** Lines 33-95: the constants, with the creation of the scratch directory
    in their midst. *)
Definition prelude : M profile :=
  let DIST_DIR := path_join (dirname E) [".."; "dist"] in
  let installDir := installDir_in DIST_DIR (platform E) in
  let resourcesDir := resourcesDir_in installDir (platform E) in
  emit (EnsureDirSync DIST_DIR) ;;
  emit (MkdtempSync (tmpdir E)) ;;
  modify (with_tmp (Some ∅)) ;;
  emit (ConsoleLog (show_path (tmpdir E))) ;;
  os <- lift (DOWNLOAD_OS (platform E) (arch E)) ;;
  ret {| download_os := os;
         DOWNLOAD_INFO_URL := Some (default EmptyString (index DOWNLOAD_INFO_URLS os));
         DOWNLOAD_URL := DOWNLOAD_URL_for os;
         distDir := DIST_DIR;
         installDir := installDir;
         resourcesDir := resourcesDir;
         executableDir := executableDir_in installDir (platform E);
         runtimeInfo := path_join DIST_DIR ["firefox.json"];
         browserJAR := path_join resourcesDir ["browser"; "omni.ja"] |}.

(** request(url, (error, response, body) => ...) *)
Definition request (url : string)
    (callback : option error -> option string -> M unit) : M unit :=
  emit (Request url) ;;
  defer false (match http E url with
               | Response r =>
                   match body_error r with
                   | None => callback None (Some (body r))
                   | Some e => callback (Some e) None
                   end
               | NetError e => callback (Some e) None
               end).

Definition parse (text : string) : M json :=
  match JSON_parse E text with
  | Some v => ret v
  | None => throw (SyntaxError text)
  end.

(** Lines 103-141. *)
Definition checkForUpdate (pf : profile) : promise :=
  new_Promise (fun resolve reject =>
    spinner "  Checking runtime…" false ;;
    match truthy_string (DOWNLOAD_INFO_URL pf) with
    | Some url =>
        fs_readFile (runtimeInfo pf) "firefox.json" (fun read =>
          (match read with
           | Throw error => emit (ConsoleWarn error)
           | Normal _ => ret tt
           end) ;;
          oldFirefoxInfo <- parse (match read with Normal data => data | Throw _ => "{}" end) ;;
          request url (fun error body =>
            (match error with
             | Some e => emit (ConsoleWarn e) ;; resolve VUndefined
             | None => ret tt
             end) ;;
            currentFirefoxInfo <- parse (default "undefined" body) ;;
            modify (with_info (Some currentFirefoxInfo)) ;;
            same <- lift (isUpToDate currentFirefoxInfo oldFirefoxInfo) ;;
            if same then resolve (VBool true)
            else (* Continue to download. *) resolve VUndefined))
    | None => resolve VUndefined
    end).

(** console.log('\n\n\n', currentFirefoxInfo): the arguments are printed
    with a space between them, the second as util.inspect renders it. *)
Context (inspect : jsval -> string).

(** Lines 160-207: [downloadRuntime()].  [download] is the function of
    bin/postinstall.js, line for line. *)
Definition downloadRuntime (pf : profile) (redirects : nat) : promise :=
  chain
    (new_Promise (fun resolve reject =>
       spinner "  Downloading runtime…" false ;;
       Postinstall.download E redirects resolve reject (DOWNLOAD_URL pf)))
    [ Then (fun v =>
        match v with
        | VResponse response =>
            let extension := index FILE_EXTENSIONS (headers_content_type response) in
            let file := "runtime." +:+ ToString (JStr <$> extension) in
            modify (with_filePath (Some (path_join (tmpdir E) [file]))) ;;
            emit (CreateWriteStream (path_join (tmpdir E) [file])) ;;
            modify (fun s => with_tmp (add_name file <$> tmp s) s) ;;
            modify (with_fileStream true) ;;
            ret (ReturnPromise (new_Promise (fun resolve reject =>
              defer false
                (match body_error response with
                 | None =>
                     (* fileStream 'finish' *)
                     info <- get currentBrowserInfo ;;
                     emit (ConsoleLog (line_feed +:+ line_feed +:+ line_feed +:+ " "
                                       +:+ inspect info)) ;;
                     (match info with
                      | Some j =>
                          if truthy_json info
                          then fs_writeFile (runtimeInfo pf) "firefox.json"
                                 (JSON_stringify E j +:+ line_feed)
                          else ret tt
                      | None => ret tt
                      end) ;;
                     resolve VUndefined
                 | Some e => reject e
                 end))))
        | _ => throw (TypeError "Cannot read property 'headers'")
        end);
      Then (fun _ =>
        spinner (check_mark +:+ "Downloading runtime… done!") true ;;
        ret (Return VUndefined));
      Catch (fun error =>
        spinner (cross_mark +:+ "Downloading runtime… failed!") true ;;
        emit (ConsoleError error) ;;
        stream <- get fileStream ;;
        (if stream then emit StreamEnd else ret tt) ;;
        ret (Return VUndefined)) ].

(** Lines 142-153: the callback that follows the check. *)
Definition after_check (pf : profile) (redirects : nat) (isRuntimeUpToDate : value)
    : M returned :=
  if truthy isRuntimeUpToDate then
    buildid <- Postinstall.info_field "buildid" ;;
    alias <- Postinstall.info_field "target_alias" ;;
    info <- get currentBrowserInfo ;;
    spinner (check_mark +:+ "Checking runtime… done! Already using latest version (build ID: "
             +:+ buildid +:+ "; platform: " +:+ alias +:+ ").") (truthy_json info) ;;
    ret (ReturnPromise (Promise_resolve VUndefined))
  else
    buildid <- Postinstall.info_field "buildid" ;;
    alias <- Postinstall.info_field "target_alias" ;;
    info <- get currentBrowserInfo ;;
    spinner (check_mark +:+ "Checking runtime… done! New version available for download (build ID: "
             +:+ buildid +:+ "; platform: " +:+ alias +:+ ").") (truthy_json info) ;;
    ret (ReturnPromise (downloadRuntime pf redirects)).

(** Lines 103-158: the check and what is chained on it;
    [.then(installRuntime)] is given [undefined], as in bin/postinstall.js. *)
Definition check_chain (pf : profile) (redirects : nat) : promise :=
  chain (checkForUpdate pf)
    [ Then (after_check pf redirects);
      ThenNonFunction;
      Catch Postinstall.check_failed ].
End script.
End Part000.

(** ** A JSON reader and writer to run the scripts with

    [json_parse] reads the JSON texts whose numbers are integers and whose
    strings use no escape other than those of the quote, the backslash and
    the line feed; [json_stringify] writes with an indentation of two
    spaces. *)

Definition is_space (c : ascii) : bool :=
  (Ascii.eqb c " " || Ascii.eqb c "009" || Ascii.eqb c "010" || Ascii.eqb c "013")%char.

Fixpoint skip_spaces (s : string) : string :=
  match s with
  | String c rest => if is_space c then skip_spaces rest else s
  | EmptyString => s
  end.

Definition digit_of (c : ascii) : option Z :=
  let n := Z.of_nat (nat_of_ascii c) in
  if (48 <=? n)%Z && (n <=? 57)%Z then Some (n - 48)%Z else None.

Fixpoint read_digits (acc : Z) (s : string) : Z * string :=
  match s with
  | String c rest =>
      match digit_of c with
      | Some d => read_digits (10 * acc + d)%Z rest
      | None => (acc, s)
      end
  | EmptyString => (acc, s)
  end.

Definition read_number (s : string) : option (Z * string) :=
  match s with
  | String c rest =>
      if Ascii.eqb c "-" then
        match rest with
        | String d _ =>
            match digit_of d with
            | Some _ => let '(n, r) := read_digits 0 rest in Some ((- n)%Z, r)
            | None => None
            end
        | EmptyString => None
        end
      else match digit_of c with
           | Some _ => Some (read_digits 0 s)
           | None => None
           end
  | EmptyString => None
  end.

(** The characters of a string literal, after its opening quote. *)
Fixpoint read_string (s : string) : option (string * string) :=
  match s with
  | EmptyString => None
  | String c rest =>
      if Ascii.eqb c quote_char then Some (EmptyString, rest)
      else if Ascii.eqb c backslash then
        match rest with
        | String e rest' =>
            let unescaped :=
              if Ascii.eqb e quote_char then Some quote_char
              else if Ascii.eqb e backslash then Some backslash
              else if Ascii.eqb e "n" then Some "010"%char
              else None in
            match unescaped, read_string rest' with
            | Some u, Some (str, r) => Some (String u str, r)
            | _, _ => None
            end
        | EmptyString => None
        end
      else
        match read_string rest with
        | Some (str, r) => Some (String c str, r)
        | None => None
        end
  end.

Definition strip_prefix (word s : string) : option string :=
  if String.prefix word s
  then Some (String.substring (String.length word) (String.length s - String.length word) s)
  else None.

(** A repeated key keeps its first position and takes the last value. *)
Fixpoint set_prop (key : string) (v : json) (props : list (string * json))
    : list (string * json) :=
  match props with
  | [] => [(key, v)]
  | (k, old) :: rest =>
      if String.eqb k key then (k, v) :: rest else (k, old) :: set_prop key v rest
  end.

Fixpoint read_value (fuel : nat) (s : string) : option (json * string) :=
  match fuel with
  | O => None
  | S n =>
    match skip_spaces s with
    | EmptyString => None
    | String c rest =>
        if Ascii.eqb c "{" then
          match skip_spaces rest with
          | String "}" r => Some (JObj [], r)
          | _ => read_members n [] rest
          end
        else if Ascii.eqb c "[" then
          match skip_spaces rest with
          | String "]" r => Some (JArr [], r)
          | _ => read_elements n [] rest
          end
        else if Ascii.eqb c quote_char then
          match read_string rest with
          | Some (str, r) => Some (JStr str, r)
          | None => None
          end
        else
          match strip_prefix "true" (String c rest), strip_prefix "false" (String c rest),
                strip_prefix "null" (String c rest) with
          | Some r, _, _ => Some (JBool true, r)
          | _, Some r, _ => Some (JBool false, r)
          | _, _, Some r => Some (JNull, r)
          | None, None, None =>
              match read_number (String c rest) with
              | Some (z, r) => Some (JNum z, r)
              | None => None
              end
          end
    end
  end
with read_members (fuel : nat) (acc : list (string * json)) (s : string)
    : option (json * string) :=
  match fuel with
  | O => None
  | S n =>
    match skip_spaces s with
    | String c rest =>
        if Ascii.eqb c quote_char then
          match read_string rest with
          | Some (key, r) =>
              match skip_spaces r with
              | String ":" r1 =>
                  match read_value n r1 with
                  | Some (v, r2) =>
                      match skip_spaces r2 with
                      | String "," r3 => read_members n (set_prop key v acc) r3
                      | String "}" r3 => Some (JObj (set_prop key v acc), r3)
                      | _ => None
                      end
                  | None => None
                  end
              | _ => None
              end
          | None => None
          end
        else None
    | EmptyString => None
    end
  end
with read_elements (fuel : nat) (acc : list json) (s : string)
    : option (json * string) :=
  match fuel with
  | O => None
  | S n =>
    match read_value n s with
    | Some (v, r) =>
        match skip_spaces r with
        | String "," r1 => read_elements n (acc ++ [v])%list r1
        | String "]" r1 => Some (JArr (acc ++ [v])%list, r1)
        | _ => None
        end
    | None => None
    end
  end.

Definition json_parse (text : string) : option json :=
  match read_value (S (String.length text)) text with
  | Some (v, rest) =>
      match skip_spaces rest with
      | EmptyString => Some v
      | _ => None
      end
  | None => None
  end.

Fixpoint escape (s : string) : string :=
  match s with
  | EmptyString => EmptyString
  | String c rest =>
      if Ascii.eqb c quote_char then String backslash (String quote_char (escape rest))
      else if Ascii.eqb c backslash then String backslash (String backslash (escape rest))
      else if Ascii.eqb c "010" then String backslash (String "n" (escape rest))
      else String c (escape rest)
  end.

Definition quoted (s : string) : string :=
  String quote_char (escape s) +:+ String quote_char EmptyString.

Fixpoint json_stringify (indent : string) (v : json) : string :=
  let inner := indent +:+ "  " in
  match v with
  | JNull => "null"
  | JBool true => "true"
  | JBool false => "false"
  | JNum n => pretty n
  | JStr s => quoted s
  | JArr [] => "[]"
  | JArr items =>
      "[" +:+ line_feed +:+
      (fix each (l : list json) : string :=
         match l with
         | [] => EmptyString
         | [x] => inner +:+ json_stringify inner x +:+ line_feed
         | x :: rest => inner +:+ json_stringify inner x +:+ "," +:+ line_feed +:+ each rest
         end) items
      +:+ indent +:+ "]"
  | JObj [] => "{}"
  | JObj props =>
      "{" +:+ line_feed +:+
      (fix each (l : list (string * json)) : string :=
         match l with
         | [] => EmptyString
         | [(k, x)] => inner +:+ quoted k +:+ ": " +:+ json_stringify inner x +:+ line_feed
         | (k, x) :: rest =>
             inner +:+ quoted k +:+ ": " +:+ json_stringify inner x +:+ "," +:+ line_feed
             +:+ each rest
         end) props
      +:+ indent +:+ "}"
  end.

(** ** The install step on its own

    The executor of installRuntime, run to the end on a dist directory with
    [filePath] naming the archive; and what it leaves in the directory. *)

Definition install_once (E : env) (pf : profile) (archive : option path)
    (d : gmap string node) : gmap string node :=
  dist (run 20 (Postinstall.installRuntime_executor E pf)
          (with_filePath archive (with_tmp (Some ∅) (initial_store d)))).

(** Expansion of an archive into a directory, followed by the renaming of
    [firefox] to [runtime] when the expansion succeeded. *)
Definition unpack_and_rename (archive disk : gmap string node) : gmap string node :=
  let written := expand archive disk in
  if clashes archive disk then written
  else match entry "firefox" written with
       | None => written
       | Some n =>
           if can_replace n (entry "runtime" written)
           then put_entry "runtime" n (drop_entry "firefox" written)
           else written
       end.

Definition install_result (E : env) (archive : option path) (d : gmap string node)
    : gmap string node :=
  match archive with
  | None => drop_entry "runtime" d
  | Some file =>
      match archive_at E file with
      | Throw _ => drop_entry "runtime" d
      | Normal a => unpack_and_rename a (drop_entry "runtime" d)
      end
  end.

Definition install_result_darwin (E : env) (d : gmap string node) : gmap string node :=
  match hdiutil_attach E with
  | SpawnError _ => d
  | Exited code =>
      if truthy (VExitCode code) then d
      else match (if succeeded code then entry "FirefoxNightly.app" (volume E) else None) with
           | None => drop_entry "Runtime.app" d
           | Some bundle =>
               expand (put_entry "Runtime.app" bundle ∅) (drop_entry "Runtime.app" d)
           end
  end.


(** The paths that [XulApp.install] copies from and to. *)
Definition xulapp_sources (E : env) (file : string) : path :=
  path_join (path_join (dirname E) [".."]) [file].
Definition xulapp_targets (E : env) (file : string) : path :=
  path_join (path_join (XulApp.resourcesDir E) ["qbrt"]) [file].

(** ** Sample environments and directories *)

Definition plain_response (text : string) : response :=
  {| headers_location := None; headers_content_type := Some "application/x-tar";
     body := text; body_error := None |}.

(** A machine on which no archive can be read, [hdiutil attach] exits with
    code 1 and every other call succeeds. *)
Definition sample_env (os cpu : string) (web : string -> get_result) : env :=
  {| platform := os; arch := cpu;
     dirname := ["qbrt"; "bin"];
     tmpdir := ["tmp"; "qbrt-a1b2c3"];
     JSON_parse := json_parse;
     JSON_stringify := json_stringify EmptyString;
     http := web;
     archive_at := fun p => Throw (SystemError "ENOENT" (show_path p));
     hdiutil_attach := Exited (Some 1%N);
     hdiutil_detach := Exited (Some 0%N);
     volume := ∅;
     fs_ensureDir := fun _ => None;
     fs_copy := fun _ _ => None;
     extract_zip := fun _ _ => None;
     plist_read := fun _ => None |}.

Definition build_X_Y : json := JObj [("buildid", JStr "X"); ("target_alias", JStr "Y")].

(** Every URL answers with the metadata of build X for platform Y. *)
Definition serves_X_Y (url : string) : get_result :=
  Response (plain_response (json_stringify EmptyString build_X_Y)).

Definition linux_x64 : env := sample_env "linux" "x64" serves_X_Y.
Definition darwin_x64 : env := sample_env "darwin" "x64" serves_X_Y.

Definition linux_info_url : string := nightly_10_01_59 +:+ ".linux-x86_64.json".
Definition linux_bin_url : string := nightly_10_01_59 +:+ ".linux-x86_64.tar.bz2".

(** A dist directory with an installed runtime and the record of build X. *)
Definition installed_X_Y : gmap string node :=
  {[ "runtime" := Dir {[ ["firefox"] := "ELF" ]};
     "runtime-info.json" := File (json_stringify EmptyString build_X_Y +:+ line_feed) ]}.

Definition installed_bundle : gmap string node :=
  {[ "Runtime.app" := Dir {[ ["Contents"; "MacOS"; "firefox"] := "Mach-O" ]} ]}.

(** A record that holds no JSON. *)
Definition garbled_record : gmap string node :=
  {[ "runtime-info.json" := File "not json"; "firefox.json" := File "not json" ]}.


(** A tarball whose single top-level directory is [firefox], and a linux
    machine on which every archive file holds it. *)
Definition nightly_tarball : gmap string node :=
  {[ "firefox" := Dir {[ ["firefox-bin"] := "nightly build" ]} ]}.

Definition linux_with_tarball : env :=
  {| platform := "linux"; arch := "x64";
     dirname := ["qbrt"; "bin"];
     tmpdir := ["tmp"; "qbrt-a1b2c3"];
     JSON_parse := json_parse;
     JSON_stringify := json_stringify EmptyString;
     http := serves_X_Y;
     archive_at := fun _ => Normal nightly_tarball;
     hdiutil_attach := Exited (Some 1%N);
     hdiutil_detach := Exited (Some 0%N);
     volume := ∅;
     fs_ensureDir := fun _ => None;
     fs_copy := fun _ _ => None;
     extract_zip := fun _ _ => None;
     plist_read := fun _ => None |}.

Definition linux_profile : profile :=
  {| download_os := Some "linux64";
     DOWNLOAD_INFO_URL := Some linux_info_url;
     DOWNLOAD_URL := linux_bin_url;
     distDir := ["qbrt"; "dist"; "linux"];
     installDir := ["qbrt"; "dist"; "linux"; "runtime"];
     resourcesDir := ["qbrt"; "dist"; "linux"; "runtime"];
     executableDir := ["qbrt"; "dist"; "linux"; "runtime"];
     runtimeInfo := ["qbrt"; "dist"; "linux"; "runtime-info.json"];
     browserJAR := ["qbrt"; "dist"; "linux"; "runtime"; "browser"; "omni.ja"] |}.

Definition downloaded_tarball : path := ["tmp"; "qbrt-a1b2c3"; "runtime.tar.bz2"].

(** A redirect from the win64 installer to a mirror, and the archive there. *)
Definition mirror_installer : string :=
  "https://cdn.example/firefox-55.0a1.en-US.win64.installer.exe".
Definition mirror_zip : string :=
  "https://cdn.example/firefox-55.0a1.en-US.win64.zip".
Definition redirect_to_mirror : response :=
  {| headers_location := Some mirror_installer; headers_content_type := None;
     body := EmptyString; body_error := None |}.
Definition mirror_web (url : string) : get_result :=
  if String.eqb url mirror_zip
  then Response {| headers_location := None; headers_content_type := Some "application/zip";
                   body := "PK"; body_error := None |}
  else if String.eqb url (DOWNLOAD_URL_for (Some "win64")) then Response redirect_to_mirror
  else NetError (SystemError "ENOTFOUND" url).

(** *** Readings of a trace *)

Definition is_get (ev : event) : bool :=
  match ev with
  | HttpsGet _ => true
  | _ => false
  end.

Definition is_copy (ev : event) : bool :=
  match ev with
  | CopySync _ _ | Copy _ _ => true
  | _ => false
  end.

(** The calls of the clean-up callback: removal of the downloaded archive,
    removal of the scratch directory, process.exit(). *)
Definition is_cleanup (ev : event) : bool :=
  match ev with
  | RmdirSync _ | ProcessExit | RemoveSync None => true
  | RemoveSync (Some p) => bool_decide (p = downloaded_tarball)
  | _ => false
  end.

Definition reports_up_to_date (ev : event) : bool :=
  match ev with
  | Spinner msg _ =>
      String.prefix (check_mark +:+ "Checking runtime… done! Already using latest version") msg
  | _ => false
  end.

(** ** Further readings of the scripts

    Definitions that the properties of the parts of the scripts not covered
    so far are stated with. *)

(** A value that [===] compares by reference: an array or an object. *)
Definition compound (v : jsval) : bool :=
  match v with
  | Some (JArr _) | Some (JObj _) => true
  | _ => false
  end.

Fixpoint last_char (s : string) : option ascii :=
  match s with
  | EmptyString => None
  | String c EmptyString => Some c
  | String _ rest => last_char rest
  end.

(** The fallback of [DOWNLOAD_URL] (line 75), [os] being the string form of
    [DOWNLOAD_OS]. *)
Definition generic_download_url (os : string) : string :=
  "https://download.mozilla.org/?product=firefox-nightly-latest-ssl&lang=en-US&os=" +:+ os.

(** *** The install step on macOS *)

Definition is_detach (ev : event) : bool :=
  match ev with
  | Spawn _ (verb :: _) => String.eqb verb "detach"
  | _ => false
  end.

(** The entries of the scratch directory once the install step is over on
    macOS: the mount point is there if the image was attached. *)
Definition mounted_after (attach : spawn_result) : gset string :=
  match attach with
  | Exited (Some 0%N) => add_name "volume" ∅
  | _ => ∅
  end.

(** *** The xulapp graft *)

(** The directory that [install()] makes and copies into. *)
Definition xulapp_target (E : env) : path := path_join (XulApp.resourcesDir E) ["qbrt"].

(** The error of the first file of the list whose copy fails. *)
Definition first_copy_failure (E : env) : option error :=
  head (omap (fun file => fs_copy E (xulapp_sources E file) (xulapp_targets E file))
          XulApp.files).

(** What [install()] is rejected with. *)
Definition install_error (E : env) : error :=
  match fs_ensureDir E (xulapp_target E) with
  | Some e => e
  | None => default (ReferenceError "OPENVR_DLL_URL") (first_copy_failure E)
  end.

(** The file-system calls of [install()]. *)
Definition install_calls (E : env) : list event :=
  EnsureDir (xulapp_target E)
  :: match fs_ensureDir E (xulapp_target E) with
     | Some _ => []
     | None => List.map (fun file => Copy (xulapp_sources E file) (xulapp_targets E file))
                 XulApp.files
     end.

(** *** The check and the download *)

(** The store when line 100 of bin/postinstall.js is reached: the scratch
    directory exists and is empty, [currentBrowserInfo] is the empty
    object. *)
Definition at_line_100 (d : gmap string node) : store :=
  with_info (Some (JObj [])) (with_tmp (Some ∅) (initial_store d)).

(** The store of the second copy when its line 103 is reached: the scratch
    directory exists, [currentFirefoxInfo] is still undefined. *)
Definition at_line_103 (d : gmap string node) : store :=
  with_tmp (Some ∅) (initial_store d).

(** What the web has in store for [download(url)]: the URLs requested one
    after the other, each the redirect target of the one before, and the
    response without a location, or the error, that ends the sequence. *)
Inductive download_ends (E : env) : string -> list string -> get_result -> Prop :=
| ends_with_response (url : string) (r : response) :
    http E url = Response r -> truthy_string (headers_location r) = None ->
    download_ends E url [url] (Response r)
| ends_with_error (url : string) (e : error) :
    http E url = NetError e ->
    download_ends E url [url] (NetError e)
| follows_redirect (url location : string) (r : response) (visited : list string)
      (outcome : get_result) :
    http E url = Response r -> truthy_string (headers_location r) = Some location ->
    download_ends E (redirect_target (platform E) location) visited outcome ->
    download_ends E url (url :: visited) outcome.

(** The listener that the outcome of a download reaches. *)
Definition download_settles (resolve : reaction value) (reject : reaction error)
    (outcome : get_result) : M unit :=
  match outcome with
  | Response r => resolve (VResponse r)
  | NetError e => reject e
  end.

(** The callback that [download(url)] leaves with https.get (lines
    157-171). *)
Definition download_callback (E : env) (redirects : nat) (resolve : reaction value)
    (reject : reaction error) (url : string) : M unit :=
  match http E url with
  | Response response =>
      match truthy_string (headers_location response) with
      | Some location =>
          match redirects with
          | S n => Postinstall.download E n resolve reject
                     (redirect_target (platform E) location)
          | O => ret tt
          end
      | None => resolve (VResponse response)
      end
  | NetError e => reject e
  end.

(** The rest of a run once a task has returned. *)
Definition continue_with (fuel : nat) (done : res unit * store * list (bool * task)) : store :=
  match done with
  | (Val _, s1, q) => event_loop fuel (micros q) (macros q) s1
  | (Exn e, s1, _) => with_status (Some (Uncaught e)) s1
  | (Stop, s1, _) => with_status (Some ExitCalled) s1
  end.

(** What a run leaves behind, as far as the properties below go. *)
Definition left_behind (s : store)
    : list event * gmap string node * option (gset string) * option path * bool
      * jsval * option halted * option settlement :=
  (trace s, dist s, tmp s, filePath s, fileStream s, currentBrowserInfo s, status s, probe s).





(** What the check of bin/postinstall.js is rejected with once the record
    has been read: the metadata endpoint answers with a response object,
    which JSON.parse refuses, or not at all. *)
Definition check_failure (E : env) (url : string) : error :=
  match http E url with
  | Response _ => SyntaxError "[object Object]"
  | NetError e => e
  end.

(** What the second copy's check comes to once both documents are parsed. *)
Definition decided (current old : json) : option halted * option settlement :=
  match isUpToDate current old with
  | Normal true => (Some Drained, Some (Fulfilled (VBool true)))
  | Normal false => (Some Drained, Some (Fulfilled VUndefined))
  | Throw e => (Some (Uncaught e), None)
  end.

(** The text that the check parses as the stored record ([data || '{}']). *)
Definition stored_text (name : string) (d : gmap string node) : string :=
  match entry name d with
  | Some (File data) => data
  | _ => "{}"
  end.

(** The warning of the second copy when the record cannot be read. *)
Definition read_warning (name : string) (p : path) (d : gmap string node) : list event :=
  match entry name d with
  | Some (File _) => []
  | Some (Dir _) => [ ConsoleWarn (SystemError "EISDIR" (show_path p)) ]
  | None => [ ConsoleWarn (SystemError "ENOENT" (show_path p)) ]
  end.

(** The error that request(url, callback) hands to its callback: that of the
    connection, or that of the response while its body is read. *)
Definition request_error (outcome : get_result) : option error :=
  match outcome with
  | NetError e => Some e
  | Response r => body_error r
  end.

(** *** The callbacks of bin/postinstall.js, by name

    The callbacks that [downloadRuntime] and the check pass around are
    anonymous in the script.  They are named here, so that a run can be
    followed callback by callback; [downloadRuntime_unfold] and
    [checkForUpdate_unfold] show that the definitions above are made of
    them. *)

Section callbacks.
Context (E : env) (pf : profile).

(** Lines 181-189: the promise that waits for the file to be written. *)
Definition until_written (response : response) : promise :=
  new_Promise (fun resolve reject =>
    defer false
      (match body_error response with
       | None =>
           info <- get currentBrowserInfo ;;
           (match info with
            | Some j =>
                if truthy_json info
                then fs_writeFile (runtimeInfo pf) "runtime-info.json"
                       (JSON_stringify E j +:+ line_feed)
                else ret tt
            | None => ret tt
            end) ;;
           resolve VUndefined
       | Some e => reject e
       end)).

(** Lines 175-190. *)
Definition on_response (v : value) : M returned :=
  match v with
  | VResponse response =>
      let extension := index FILE_EXTENSIONS (headers_content_type response) in
      let file := "runtime." +:+ ToString (JStr <$> extension) in
      modify (with_filePath (Some (path_join (Postinstall.tempDir E) [file]))) ;;
      emit (CreateWriteStream (path_join (Postinstall.tempDir E) [file])) ;;
      modify (fun s => with_tmp (add_name file <$> tmp s) s) ;;
      modify (with_fileStream true) ;;
      ret (ReturnPromise (until_written response))
  | _ => throw (TypeError "Cannot read property 'headers'")
  end.

(** Lines 190-192. *)
Definition on_downloaded (_ : value) : M returned :=
  spinner (check_mark +:+ "Downloading runtime… done!") true ;;
  ret (Return VUndefined).

(** Lines 193-199. *)
Definition on_download_error (error : error) : M returned :=
  spinner (cross_mark +:+ "Downloading runtime… failed!") true ;;
  emit (ConsoleError error) ;;
  stream <- get fileStream ;;
  (if stream then emit StreamEnd else ret tt) ;;
  ret (Return VUndefined).

(** Lines 111-128: the callback of https.get in the check. *)
Definition on_metadata (oldFirefoxInfo : json) (resolve : reaction value)
    (reject : reaction error) (response : response) : M unit :=
  modify (with_info (Some (JObj []))) ;;
  match JSON_parse E "[object Object]" with
  | None => reject (SyntaxError "[object Object]")
  | Some current =>
      modify (with_info (Some current)) ;;
      same <- lift (isUpToDate current oldFirefoxInfo) ;;
      if same then resolve (VBool true)
      else resolve VUndefined
  end.

(** Lines 104-129: the callback of fs.readFile in the check. *)
Definition on_record (url : string) (resolve : reaction value) (reject : reaction error)
    (read : completion string) : M unit :=
  (match read with
   | Throw _ => resolve (VBool false)
   | Normal _ => ret tt
   end) ;;
  let text := match read with Normal data => data | Throw _ => "{}" end in
  oldFirefoxInfo <- match JSON_parse E text with
                    | Some v => ret v
                    | None => throw (SyntaxError text)
                    end ;;
  https_get E url (on_metadata oldFirefoxInfo resolve reject) reject.
End callbacks.

(** *** More sample environments *)

(** A machine on which the directory for the xulapp cannot be made. *)
Definition linux_no_directory : env :=
  {| platform := "linux"; arch := "x64";
     dirname := ["qbrt"; "bin"];
     tmpdir := ["tmp"; "qbrt-a1b2c3"];
     JSON_parse := json_parse;
     JSON_stringify := json_stringify EmptyString;
     http := serves_X_Y;
     archive_at := fun _ => Normal nightly_tarball;
     hdiutil_attach := Exited (Some 1%N);
     hdiutil_detach := Exited (Some 0%N);
     volume := ∅;
     fs_ensureDir := fun p => Some (SystemError "EACCES" (show_path p));
     fs_copy := fun _ _ => None;
     extract_zip := fun _ _ => None;
     plist_read := fun _ => None |}.


(** A Mac on which hdiutil does as it is told, with what the disk image
    holds. *)
Definition darwin_with_image (image : gmap string node) : env :=
  {| platform := "darwin"; arch := "x64";
     dirname := ["qbrt"; "bin"];
     tmpdir := ["tmp"; "qbrt-a1b2c3"];
     JSON_parse := json_parse;
     JSON_stringify := json_stringify EmptyString;
     http := serves_X_Y;
     archive_at := fun p => Throw (SystemError "ENOENT" (show_path p));
     hdiutil_attach := Exited (Some 0%N);
     hdiutil_detach := Exited (Some 0%N);
     volume := image;
     fs_ensureDir := fun _ => None;
     fs_copy := fun _ _ => None;
     extract_zip := fun _ _ => None;
     plist_read := fun _ => None |}.

Definition nightly_image : gmap string node :=
  {[ "FirefoxNightly.app" := Dir {[ ["Contents"; "MacOS"; "firefox"] := "nightly build" ]} ]}.

Definition darwin_profile : profile :=
  {| download_os := Some "osx";
     DOWNLOAD_INFO_URL := Some (nightly_03_02_02 +:+ ".mac.json");
     DOWNLOAD_URL := DOWNLOAD_URL_for (Some "osx");
     distDir := ["qbrt"; "dist"; "darwin"];
     installDir := ["qbrt"; "dist"; "darwin"; "Runtime.app"];
     resourcesDir := ["qbrt"; "dist"; "darwin"; "Runtime.app"; "Contents"; "Resources"];
     executableDir := ["qbrt"; "dist"; "darwin"; "Runtime.app"; "Contents"; "MacOS"];
     runtimeInfo := ["qbrt"; "dist"; "darwin"; "runtime-info.json"];
     browserJAR := ["qbrt"; "dist"; "darwin"; "Runtime.app"; "Contents"; "Resources";
                    "browser"; "omni.ja"] |}.

Definition downloaded_image : path := ["tmp"; "qbrt-a1b2c3"; "runtime.dmg"].

(** The profile of the second copy on linux/x64: everything lives in dist/
    itself, the record is firefox.json. *)
Definition second_copy_profile : profile :=
  {| download_os := Some "linux64";
     DOWNLOAD_INFO_URL := Some linux_info_url;
     DOWNLOAD_URL := linux_bin_url;
     distDir := ["qbrt"; "dist"];
     installDir := ["qbrt"; "dist"; "runtime"];
     resourcesDir := ["qbrt"; "dist"; "runtime"];
     executableDir := ["qbrt"; "dist"; "runtime"];
     runtimeInfo := ["qbrt"; "dist"; "firefox.json"];
     browserJAR := ["qbrt"; "dist"; "runtime"; "browser"; "omni.ja"] |}.

(** A dist directory of the second copy with the record of build X. *)
Definition recorded_X_Y : gmap string node :=
  {[ "firefox.json" := File (json_stringify EmptyString build_X_Y +:+ line_feed) ]}.

(** The profile of freebsd/x64 in bin/postinstall.js: no download name, no
    metadata URL. *)
Definition freebsd_profile : profile :=
  {| download_os := None;
     DOWNLOAD_INFO_URL := None;
     DOWNLOAD_URL := DOWNLOAD_URL_for None;
     distDir := ["qbrt"; "dist"; "freebsd"];
     installDir := ["qbrt"; "dist"; "freebsd"; "runtime"];
     resourcesDir := ["qbrt"; "dist"; "freebsd"; "runtime"];
     executableDir := ["qbrt"; "dist"; "freebsd"; "runtime"];
     runtimeInfo := ["qbrt"; "dist"; "freebsd"; "runtime-info.json"];
     browserJAR := ["qbrt"; "dist"; "freebsd"; "runtime"; "browser"; "omni.ja"] |}.

(** * Properties *)

(** ** Stepping the event loop *)

Lemma event_loop_micro (n : nat) (t : task) (micro macro : list task) (s : store) :
  event_loop (S n) (t :: micro) macro s =
  match run_task t s with
  | (Val _, s1, q) => event_loop n (micro ++ micros q) (macro ++ macros q) s1
  | (Exn e, s1, _) => with_status (Some (Uncaught e)) s1
  | (Stop, s1, _) => with_status (Some ExitCalled) s1
  end.
Proof. reflexivity. Qed.

Lemma event_loop_macro (n : nat) (t : task) (macro : list task) (s : store) :
  event_loop (S n) [] (t :: macro) s =
  match run_task t s with
  | (Val _, s1, q) => event_loop n ([] ++ micros q) (macro ++ macros q) s1
  | (Exn e, s1, _) => with_status (Some (Uncaught e)) s1
  | (Stop, s1, _) => with_status (Some ExitCalled) s1
  end.
Proof. reflexivity. Qed.

Lemma event_loop_idle (n : nat) (s : store) :
  event_loop (S n) [] [] s = with_status (Some Drained) s.
Proof. reflexivity. Qed.

Ltac compute_task :=
  lazy -[event_loop entry drop_entry put_entry add_name remove_name has_name no_names
         expand clashes can_replace path_join pretty isUpToDate].

Ltac step_loop :=
  first [ rewrite event_loop_micro | rewrite event_loop_macro | rewrite event_loop_idle ];
  compute_task.

(** ** The up-to-date decision *)

Lemma strict_eq_string_or_absent (a b : jsval) :
  string_or_absent a -> string_or_absent b ->
  strict_eq a b = true <-> a = b.
Proof.
  intros [->|[s ->]] [->|[t ->]]; simpl; split; try done.
  - intros H%String.eqb_eq. by subst.
  - intros [= ->]. apply String.eqb_refl.
Qed.

Lemma strict_eq_absent_one_side (a : json) :
  strict_eq (Some a) None = false /\ strict_eq None (Some a) = false.
Proof. by destruct a. Qed.

Lemma isUpToDate_objects (current old : list (string * json)) :
  isUpToDate (JObj current) (JObj old) =
  Normal (strict_eq (lookup_prop "buildid" current) (lookup_prop "buildid" old)
          && strict_eq (lookup_prop "target_alias" current) (lookup_prop "target_alias" old)).
Proof.
  unfold isUpToDate; simpl.
  by destruct (strict_eq (lookup_prop "buildid" current) (lookup_prop "buildid" old)).
Qed.

(** C1 as amended: on descriptors whose [buildid] and [target_alias] are
    strings or absent, the decision is [true] exactly when each of the two
    fields reads the same in both descriptors, an absent field reading as
    [undefined]; a field present in one descriptor only makes it [false]. *)
Theorem isUpToDate_iff_same_reads (current old : list (string * json)) :
  string_or_absent (lookup_prop "buildid" current) ->
  string_or_absent (lookup_prop "buildid" old) ->
  string_or_absent (lookup_prop "target_alias" current) ->
  string_or_absent (lookup_prop "target_alias" old) ->
  exists decision,
    isUpToDate (JObj current) (JObj old) = Normal decision /\
    (decision = true <->
       lookup_prop "buildid" current = lookup_prop "buildid" old /\
       lookup_prop "target_alias" current = lookup_prop "target_alias" old) /\
    (forall key, key = "buildid" \/ key = "target_alias" ->
       is_Some (lookup_prop key current) -> lookup_prop key old = None ->
       decision = false) /\
    (forall key, key = "buildid" \/ key = "target_alias" ->
       lookup_prop key current = None -> is_Some (lookup_prop key old) ->
       decision = false).
Proof.
  intros Hcb Hob Hct Hot.
  eexists; split; [apply isUpToDate_objects|].
  pose proof (strict_eq_string_or_absent _ _ Hcb Hob) as Hb.
  pose proof (strict_eq_string_or_absent _ _ Hct Hot) as Ht.
  split; [|split].
  - rewrite andb_true_iff, Hb, Ht. tauto.
  - intros key [->| ->] [v Hv] Hnone; rewrite Hv, Hnone.
    + by destruct v.
    + destruct v; simpl; by rewrite ?andb_false_r.
  - intros key [->| ->] Hnone [v Hv]; rewrite Hv, Hnone.
    + by destruct v.
    + destruct v; simpl; by rewrite ?andb_false_r.
Qed.

(** C1, an instance: a descriptor against itself. *)
Lemma isUpToDate_iff_same_reads_witness :
  exists decision,
    isUpToDate build_X_Y build_X_Y = Normal decision /\ decision = true.
Proof.
  destruct (isUpToDate_iff_same_reads
              [("buildid", JStr "X"); ("target_alias", JStr "Y")]
              [("buildid", JStr "X"); ("target_alias", JStr "Y")])
    as (decision & Heq & Hiff & _).
  - right. by exists "X".
  - right. by exists "X".
  - right. by exists "Y".
  - right. by exists "Y".
  - exists decision. split; [exact Heq|]. apply Hiff. split; reflexivity.
Defined.

(** C1 as stated fails: two descriptors that both lack [buildid] and
    [target_alias] (the empty stored descriptor against a fetched document
    without these fields) are reported up to date. *)
Lemma isUpToDate_both_missing :
  lookup_prop "buildid" [] = None /\ lookup_prop "target_alias" [] = None /\
  isUpToDate (JObj []) (JObj []) = Normal true.
Proof. repeat split. Qed.

(** ** Redirect rewriting *)

Lemma append_eq_suffix_length (stem suffix : string) :
  String.length (stem +:+ suffix) = String.length stem + String.length suffix.
Proof. induction stem; simpl; [done|]. by rewrite IHstem. Qed.

Lemma replace_installer_suffix_match (stem : string) :
  replace_installer_suffix (stem +:+ ".installer.exe") = stem +:+ ".zip".
Proof.
  induction stem as [|c stem IH]; [reflexivity|].
  change (String c stem +:+ ".installer.exe") with (String c (stem +:+ ".installer.exe")).
  change (String c stem +:+ ".zip") with (String c (stem +:+ ".zip")).
  unfold replace_installer_suffix; fold replace_installer_suffix.
  destruct (String.eqb_spec (String c (stem +:+ ".installer.exe")) ".installer.exe") as [Heq|_].
  - apply (f_equal String.length) in Heq.
    simpl in Heq. rewrite append_eq_suffix_length in Heq. simpl in Heq. lia.
  - by rewrite IH.
Qed.

Lemma replace_installer_suffix_other (location : string) :
  (forall stem, location <> stem +:+ ".installer.exe") ->
  replace_installer_suffix location = location.
Proof.
  induction location as [|c rest IH]; intros Hno; [reflexivity|].
  unfold replace_installer_suffix; fold replace_installer_suffix.
  destruct (String.eqb_spec (String c rest) ".installer.exe") as [Heq|_].
  - exfalso. apply (Hno EmptyString). exact Heq.
  - f_equal. apply IH. intros stem ->. by apply (Hno (String c stem)).
Qed.

(** C3: when the response to [download(url)] carries a location, the
    callback calls [download] on the redirect target, which is the next URL
    requested.  On win32 a target ending in [.installer.exe] is followed with
    that suffix replaced by [.zip] and is otherwise the same; a target
    without the suffix, and any target on another platform, is followed as it
    is. *)
Theorem redirect_followed_rewritten (E : env) (n : nat)
    (resolve : reaction value) (reject : reaction error)
    (url location : string) (r : response) (s : store) :
  http E url = Response r ->
  truthy_string (headers_location r) = Some location ->
  Postinstall.download E (S n) resolve reject url s =
    (Val tt, with_trace (trace s ++ [HttpsGet url]) s,
     [(false, Task (Postinstall.download E n resolve reject
                      (redirect_target (platform E) location)))])
  /\ trace (run 1 (Postinstall.download E (S n) resolve reject url) s) =
       (trace s ++ [HttpsGet url; HttpsGet (redirect_target (platform E) location)])%list
  /\ (platform E = "win32" -> forall stem, location = stem +:+ ".installer.exe" ->
        redirect_target (platform E) location = stem +:+ ".zip")
  /\ (platform E = "win32" -> (forall stem, location <> stem +:+ ".installer.exe") ->
        redirect_target (platform E) location = location)
  /\ (platform E <> "win32" -> redirect_target (platform E) location = location).
Proof.
  intros Hget Hloc.
  assert (Hstep : Postinstall.download E (S n) resolve reject url s =
    (Val tt, with_trace (trace s ++ [HttpsGet url]) s,
     [(false, Task (Postinstall.download E n resolve reject
                      (redirect_target (platform E) location)))])).
  { cbn. unfold https_get, bind, emit, modify, defer. cbn.
    rewrite Hget. cbn. rewrite Hloc. reflexivity. }
  split; [exact Hstep|]. split; [|repeat split].
  - unfold run. rewrite Hstep. cbn [micros macros List.filter List.map fst snd negb].
    rewrite event_loop_macro.
    destruct n; cbn; by rewrite <- app_assoc.
  - intros Hwin stem ->. unfold redirect_target. rewrite Hwin. cbn.
    apply replace_installer_suffix_match.
  - intros Hwin Hno. unfold redirect_target. rewrite Hwin. cbn.
    by apply replace_installer_suffix_other.
  - intros Hother. unfold redirect_target.
    by destruct (String.eqb_spec (platform E) "win32").
Qed.

(** C3, an instance: on win32 the mirror's installer link is followed as its
    [.zip] twin. *)
Lemma redirect_followed_rewritten_witness :
  redirect_target "win32" mirror_installer = mirror_zip.
Proof.
  exact (proj1 (proj2 (proj2 (redirect_followed_rewritten
                                (sample_env "win32" "x64" mirror_web) 1
                                (fun _ => ret tt) (fun _ => ret tt)
                                (DOWNLOAD_URL_for (Some "win64")) mirror_installer
                                redirect_to_mirror (initial_store ∅) eq_refl eq_refl)))
               eq_refl "https://cdn.example/firefox-55.0a1.en-US.win64" eq_refl).
Defined.

(** The requests of a whole run on win32: the installer link that the
    redirect names is never requested, its [.zip] twin is. *)
Example win32_run_requests :
  List.filter is_get
    (trace (run 100 (Postinstall.main (sample_env "win32" "x64" mirror_web) 10)
              (initial_store ∅))) =
  [ HttpsGet (nightly_03_02_02 +:+ ".win64.json");
    HttpsGet (nightly_03_02_02 +:+ ".win64.installer.exe");
    HttpsGet mirror_zip ].
Proof. vm_compute. reflexivity. Qed.

(** ** Platform profile *)

Lemma path_join_last (base : path) (segments : list string) (name : string) :
  name <> ".." -> path_join base (segments ++ [name]) <> [].
Proof.
  intros Hname. unfold path_join. rewrite fold_left_app. simpl.
  destruct (String.eqb_spec name ".."); [done|].
  intros Hnil. by apply app_eq_nil in Hnil as [_ ?].
Qed.

Ltac nonempty_path :=
  match goal with
  | |- path_join ?b [?x] <> [] => apply (path_join_last b [] x); discriminate
  | |- path_join ?b [?x; ?y] <> [] => apply (path_join_last b [x] y); discriminate
  | |- path_join ?b [?x; ?y; ?z] <> [] => apply (path_join_last b [x; y] z); discriminate
  end.

Ltac populated_profile :=
  unfold populated, installDir_in, resourcesDir_in, executableDir_in, is_darwin;
  cbn -[path_join index DOWNLOAD_URL_for];
  repeat split;
  first [ nonempty_path
        | by (vm_compute; eexists)
        | by vm_compute ].

Lemma supported_cases (os cpu : string) :
  supported os cpu = true ->
  (os = "win32" \/ os = "linux") /\ (cpu = "ia32" \/ cpu = "x64") \/ os = "darwin".
Proof.
  unfold supported. rewrite orb_true_iff, andb_true_iff, !orb_true_iff, !String.eqb_eq.
  tauto.
Qed.

(** C2 as amended.  For the pairs on which [DOWNLOAD_OS] has a value, the
    constants resolve to a profile with every field populated: in
    bin/postinstall.js with no call made before, in the second copy after
    the scratch directory has been created.  On win32 and linux with another
    architecture the resolution throws, in bin/postinstall.js before any
    call.  On any other platform nothing is thrown: [DOWNLOAD_OS] and the
    metadata URL are undefined. *)
Theorem profile_resolution (E : env) (s : store) :
  (supported (platform E) (arch E) = true ->
     (exists pf, Postinstall.prelude E s = (Val pf, s, []) /\ populated pf) /\
     (exists pf s',
        Part000.prelude E s = (Val pf, s', []) /\ populated pf /\
        trace s' = (trace s ++ [ EnsureDirSync (path_join (dirname E) [".."; "dist"]);
                                 MkdtempSync (tmpdir E);
                                 ConsoleLog (show_path (tmpdir E)) ])%list)) /\
  ((platform E = "win32" \/ platform E = "linux") ->
   arch E <> "ia32" -> arch E <> "x64" ->
     exists msg, Postinstall.prelude E s = (Exn (Error_ msg), s, [])) /\
  (platform E <> "win32" -> platform E <> "linux" -> platform E <> "darwin" ->
     exists pf, Postinstall.prelude E s = (Val pf, s, []) /\
                download_os pf = None /\ DOWNLOAD_INFO_URL pf = None).
Proof.
  destruct E as [os cpu dir tmpd ? ? ? ? ? ? ? ? ? ? ?]; simpl.
  split; [|split].
  - intros Hs. apply supported_cases in Hs.
    assert (Hstore : forall evs,
      trace (with_trace (trace (with_tmp (Some ∅) (with_trace (trace (with_trace
        (trace s ++ [EnsureDirSync (path_join dir [".."; "dist"])]) s) ++ [MkdtempSync tmpd])
        (with_trace (trace s ++ [EnsureDirSync (path_join dir [".."; "dist"])]) s))) ++ evs)
        (with_tmp (Some ∅) (with_trace (trace (with_trace
        (trace s ++ [EnsureDirSync (path_join dir [".."; "dist"])]) s) ++ [MkdtempSync tmpd])
        (with_trace (trace s ++ [EnsureDirSync (path_join dir [".."; "dist"])]) s))))
      = (trace s ++ [EnsureDirSync (path_join dir [".."; "dist"]); MkdtempSync tmpd] ++ evs)%list).
    { intros evs. cbn. by rewrite <- !app_assoc. }
    destruct Hs as [[[-> | ->] [-> | ->]] | ->].
    1-4: (split; [eexists | do 2 eexists]; (split; [reflexivity|]);
          [populated_profile | split; [populated_profile | apply Hstore]]).
    unfold Postinstall.prelude, Part000.prelude; cbn -[path_join index DOWNLOAD_URL_for].
    split; [eexists | do 2 eexists]; (split; [reflexivity|]);
      [populated_profile | split; [populated_profile | apply Hstore]].
  - intros [-> | ->] H32 H64; unfold Postinstall.prelude; cbn;
      destruct (String.eqb_spec cpu "ia32"); [done| |done|];
      destruct (String.eqb_spec cpu "x64"); try done; by eexists.
  - intros Hw Hl Hd. unfold Postinstall.prelude, bind, DOWNLOAD_OS; simpl.
    destruct (String.eqb_spec os "win32"); [done|].
    destruct (String.eqb_spec os "linux"); [done|].
    destruct (String.eqb_spec os "darwin"); [done|].
    eexists. split; [reflexivity|]. split; reflexivity.
Qed.

(** ** The install step *)

Lemma install_once_linux (E : env) (pf : profile) (archive : option path)
    (d : gmap string node) :
  platform E = "linux" ->
  install_once E pf archive d = install_result E archive d.
Proof.
  destruct E as [os cpu dir tmpd ? ? ? unpack ? ? ? ? ? ? ?], pf; simpl; intros ->.
  unfold install_once, install_result, run; compute_task.
  destruct archive as [file|]; compute_task; repeat step_loop; [|reflexivity].
  destruct (unpack file) as [a|e]; compute_task; repeat step_loop; [|reflexivity].
  unfold unpack_and_rename.
  destruct (clashes a (drop_entry "runtime" d)); compute_task; repeat step_loop; [reflexivity|].
  destruct (entry "firefox" (expand a (drop_entry "runtime" d))) as [n|] eqn:Hf;
    compute_task; repeat step_loop; [|reflexivity].
  destruct (can_replace n (entry "runtime" (expand a (drop_entry "runtime" d))));
    compute_task; repeat step_loop; reflexivity.
Qed.

Lemma install_once_win32 (E : env) (pf : profile) (archive : option path)
    (d : gmap string node) :
  platform E = "win32" ->
  install_once E pf archive d = install_result E archive d.
Proof.
  destruct E as [os cpu dir tmpd ? ? ? unpack ? ? ? ? ? ? ?], pf; simpl; intros ->.
  unfold install_once, install_result, run; compute_task. repeat step_loop.
  destruct archive as [file|]; compute_task; repeat step_loop; [|reflexivity].
  destruct (unpack file) as [a|e]; compute_task; repeat step_loop; [|reflexivity].
  unfold unpack_and_rename.
  destruct (clashes a (drop_entry "runtime" d)); compute_task; repeat step_loop; [reflexivity|].
  destruct (entry "firefox" (expand a (drop_entry "runtime" d))) as [n|] eqn:Hf;
    compute_task; repeat step_loop; [|reflexivity].
  destruct (can_replace n (entry "runtime" (expand a (drop_entry "runtime" d))));
    compute_task; repeat step_loop; reflexivity.
Qed.

Lemma has_name_add (name : string) (names : gset string) :
  has_name name (add_name name names) = true.
Proof. unfold has_name, add_name. apply bool_decide_eq_true. set_solver. Qed.

Lemma has_name_empty (name : string) : has_name name ∅ = false.
Proof. unfold has_name. apply bool_decide_eq_false. set_solver. Qed.

Lemma install_once_darwin (E : env) (pf : profile) (archive : option path)
    (d : gmap string node) :
  platform E = "darwin" ->
  install_once E pf archive d = install_result_darwin E d.
Proof.
  destruct E as [os cpu dir tmpd ? ? ? ? attach detach vol ? ? ? ?], pf; simpl; intros ->.
  unfold install_once, install_result_darwin, run; compute_task.
  destruct attach as [code|e]; compute_task; repeat step_loop; [|reflexivity].
  destruct code as [[|c]|]; compute_task; repeat step_loop.
  - rewrite has_name_add. compute_task.
    destruct (entry "FirefoxNightly.app" vol) as [bundle|]; compute_task; repeat step_loop.
    + destruct detach as [[[|c]|]|e]; compute_task; repeat step_loop; reflexivity.
    + reflexivity.
  - reflexivity.
  - rewrite has_name_empty. compute_task. repeat step_loop. reflexivity.
Qed.

Lemma install_once_elsewhere (E : env) (pf : profile) (archive : option path)
    (d : gmap string node) :
  platform E <> "win32" -> platform E <> "darwin" -> platform E <> "linux" ->
  install_once E pf archive d = d.
Proof.
  intros Hw Hd Hl. unfold install_once, run, Postinstall.installRuntime_executor.
  apply String.eqb_neq in Hw, Hd, Hl. unfold bind at 1. unfold spinner at 1, emit, modify.
  rewrite Hw, Hd, Hl. reflexivity.
Qed.

(** *** The result of two runs *)

Lemma entry_expand (archive disk : gmap string node) (name : string) :
  entry name (expand archive disk) =
  union_with write_entry (archive !! name) (disk !! name).
Proof. unfold entry, expand. apply lookup_union_with. Qed.

Lemma write_entry_twice (new old : node) :
  (write_entry new old ≫= write_entry new) = write_entry new old.
Proof.
  destruct new as [data|files], old as [data'|files']; simpl; try done.
  by rewrite (assoc_L (∪)), (idemp_L (∪)).
Qed.










Example linux_profile_resolved :
  Postinstall.prelude linux_with_tarball (initial_store ∅) =
  (Val linux_profile, initial_store ∅, []).
Proof. vm_compute. reflexivity. Qed.



Example install_replaces_runtime :
  install_once linux_with_tarball linux_profile (Some downloaded_tarball) installed_X_Y
  = {[ "runtime" := Dir {[ ["firefox-bin"] := "nightly build" ]};
       "runtime-info.json" := File (json_stringify EmptyString build_X_Y +:+ line_feed) ]}.
Proof. vm_compute. reflexivity. Qed.

(** ** The xulapp graft *)

(** C10: with the flag enabled, [install()] is never fulfilled: the run ends
    with the promise rejected.  When the directory and the seven copies
    succeed, the rejection is the ReferenceError for [OPENVR_DLL_URL], an
    identifier the module does not bind (it binds [OPENVR_URL]), and it comes
    after the copies. *)
Theorem xulapp_install_always_rejects (E : env) (d : gmap string node) :
  let after := run 40 (observed (XulApp.install E)) (initial_store d) in
  status after = Some Drained /\
  (exists e, probe after = Some (Rejected e)) /\
  (fs_ensureDir E (path_join (XulApp.resourcesDir E) ["qbrt"]) = None ->
   (forall file, In file XulApp.files ->
      fs_copy E (xulapp_sources E file) (xulapp_targets E file) = None) ->
   probe after = Some (Rejected (ReferenceError "OPENVR_DLL_URL")) /\
   trace after =
     EnsureDir (path_join (XulApp.resourcesDir E) ["qbrt"])
     :: List.map (fun file => Copy (xulapp_sources E file) (xulapp_targets E file))
          XulApp.files) /\
  List.find (fun b => String.eqb (fst b) "OPENVR_DLL_URL") XulApp.bindings = None /\
  In ("OPENVR_URL", Some XulApp.OPENVR_URL) XulApp.bindings.
Proof.
  intros after. subst after.
  split; [|split; [|split; [|split; [reflexivity | simpl; tauto]]]].
  - unfold XulApp.install, XulApp.install_with, XulApp.files, pify_ensureDir.
    cbn [List.map chain fold_left]. unfold pify_copy.
    destruct (fs_ensureDir E _); [by vm_compute|].
    repeat match goal with
    | |- context [fs_copy E ?a ?b] => destruct (fs_copy E a b)
    end; by vm_compute.
  - unfold XulApp.install, XulApp.install_with, XulApp.files, pify_ensureDir.
    cbn [List.map chain fold_left]. unfold pify_copy.
    destruct (fs_ensureDir E _); [vm_compute; eauto|].
    repeat match goal with
    | |- context [fs_copy E ?a ?b] => destruct (fs_copy E a b)
    end; vm_compute; eauto.
  - intros Hdir Hcopy.
    unfold XulApp.install, XulApp.install_with, XulApp.files, pify_ensureDir.
    cbn [List.map chain fold_left]. unfold pify_copy.
    rewrite Hdir. unfold xulapp_sources, xulapp_targets in Hcopy.
    rewrite (Hcopy "application.ini"), (Hcopy "chrome"), (Hcopy "chrome.manifest"),
      (Hcopy "components"), (Hcopy "defaults"), (Hcopy "devtools.manifest"),
      (Hcopy "modules") by (simpl; tauto).
    split; vm_compute; reflexivity.
Qed.

(** C10, an instance: every call succeeds, and the promise is rejected with
    the ReferenceError. *)
Lemma xulapp_install_always_rejects_witness :
  probe (run 40 (observed (XulApp.install linux_with_tarball)) (initial_store ∅))
  = Some (Rejected (ReferenceError "OPENVR_DLL_URL")).
Proof.
  exact (proj1 (proj1 (proj2 (proj2 (xulapp_install_always_rejects linux_with_tarball ∅)))
                  eq_refl (fun _ _ => eq_refl))).
Defined.

(** With the flag off the same run is fulfilled: the rejection comes from the
    download step alone. *)
Example xulapp_install_without_openvr :
  probe (run 40 (observed (XulApp.install_with linux_with_tarball false)) (initial_store ∅))
  = Some (Fulfilled VUndefined).
Proof. vm_compute. reflexivity. Qed.

(** ** The stored version record *)


Lemma truthy_string_Some (x : option string) (url : string) :
  truthy_string x = Some url -> exists c rest, x = Some (String c rest) /\ url = String c rest.
Proof. destruct x as [[|c rest]|]; simpl; intros [= <-]; eauto. Qed.






(** ** Platform profile: instances *)

(** C2, instances: linux/x64 resolves, win32/arm64 throws, freebsd/x64
    resolves with an undefined [DOWNLOAD_OS]. *)
Lemma profile_resolution_witness :
  (exists pf,
     Postinstall.prelude (sample_env "linux" "x64" serves_X_Y) (initial_store ∅)
     = (Val pf, initial_store ∅, []) /\ populated pf) /\
  (exists msg,
     Postinstall.prelude (sample_env "win32" "arm64" serves_X_Y) (initial_store ∅)
     = (Exn (Error_ msg), initial_store ∅, [])) /\
  (exists pf,
     Postinstall.prelude (sample_env "freebsd" "x64" serves_X_Y) (initial_store ∅)
     = (Val pf, initial_store ∅, []) /\
     download_os pf = None /\ DOWNLOAD_INFO_URL pf = None).
Proof.
  split; [|split].
  - exact (proj1 (proj1 (profile_resolution (sample_env "linux" "x64" serves_X_Y)
                           (initial_store ∅)) eq_refl)).
  - apply (proj1 (proj2 (profile_resolution (sample_env "win32" "arm64" serves_X_Y)
                           (initial_store ∅)))); [by left | discriminate | discriminate].
  - apply (proj2 (proj2 (profile_resolution (sample_env "freebsd" "x64" serves_X_Y)
                           (initial_store ∅)))); discriminate.
Defined.

(** C2 as stated fails: on a platform other than win32, linux and darwin
    nothing is thrown.  [DOWNLOAD_OS] is undefined and the script goes on to
    create its directories and to request the generic download URL. *)
Lemma unsupported_platform_is_not_rejected :
  supported "freebsd" "x64" = false /\
  DOWNLOAD_OS "freebsd" "x64" = Normal None /\
  (exists pf,
     Postinstall.prelude (sample_env "freebsd" "x64" serves_X_Y) (initial_store ∅)
     = (Val pf, initial_store ∅, [])) /\
  List.filter is_get
    (trace (run 100 (Postinstall.main (sample_env "freebsd" "x64" serves_X_Y) 10)
              (initial_store ∅)))
  = [ HttpsGet "https://download.mozilla.org/?product=firefox-nightly-latest-ssl&lang=en-US&os=undefined" ].
Proof.
  split; [reflexivity|]. split; [reflexivity|]. split.
  - eexists. vm_compute. reflexivity.
  - vm_compute. reflexivity.
Qed.

(** In the second copy the scratch directory exists by the time an
    unsupported architecture is detected. *)
Example part000_throws_after_creating_the_scratch_directory :
  exists s,
    Part000.prelude (sample_env "win32" "arm64" serves_X_Y) (initial_store ∅)
    = (Exn (Error_ "unsupported Windows architecture arm64"), s, []) /\
    trace s = [ EnsureDirSync ["qbrt"; "dist"]; MkdtempSync ["tmp"; "qbrt-a1b2c3"];
                ConsoleLog "tmp/qbrt-a1b2c3" ] /\
    tmp s = Some ∅.
Proof. eexists. split; [vm_compute; reflexivity|]. split; reflexivity. Qed.

(** ** Whole runs of bin/postinstall.js *)

(** The top-level code of the script on linux: by the time it returns, with
    the callback of fs.readFile still waiting, the runtime directory has been
    removed and decompress has been called without an input. *)
Lemma install_step_runs_at_load (E : env) (d : gmap string node) (n : nat) :
  platform E = "linux" -> arch E = "x64" ->
  match Postinstall.main E n (initial_store d) with
  | (Val _, s, _) =>
      dist s = drop_entry "runtime" d /\
      trace s =
        [ Spinner "  Setting up runtime…" false;
          EnsureDirSync (path_join (dirname E) [".."; "dist"; "linux"]);
          MkdtempSync (tmpdir E);
          Spinner "  Checking runtime…" false;
          ReadFile (path_join (path_join (dirname E) [".."; "dist"; "linux"])
                      ["runtime-info.json"]);
          Spinner "  Installing runtime…" false;
          RemoveSync (Some (path_join (path_join (dirname E) [".."; "dist"; "linux"])
                              ["runtime"]));
          Decompress None (path_join (dirname E) [".."; "dist"; "linux"]) ]
  | _ => False
  end.
Proof.
  destruct E as [os cpu dir tmpd ? ? ? ? ? ? ? ? ? ? ?]; simpl. intros -> ->.
  vm_compute. split; reflexivity.
Qed.

(** C4 evaluated on linux with no prior record, where a download is needed:
    the install step (RemoveSync, Decompress) comes before the check is
    resolved and before the archive is requested, let alone written. *)
Example install_step_precedes_check_and_download :
  trace (run 100 (Postinstall.main linux_x64 10) (initial_store ∅)) =
  [ Spinner "  Setting up runtime…" false;
    EnsureDirSync ["qbrt"; "dist"; "linux"];
    MkdtempSync ["tmp"; "qbrt-a1b2c3"];
    Spinner "  Checking runtime…" false;
    ReadFile ["qbrt"; "dist"; "linux"; "runtime-info.json"];
    Spinner "  Installing runtime…" false;
    RemoveSync (Some ["qbrt"; "dist"; "linux"; "runtime"]);
    Decompress None ["qbrt"; "dist"; "linux"];
    UnhandledRejection (TypeError "Input file required");
    HttpsGet linux_info_url;
    Spinner (check_mark +:+ "Checking runtime… done! New version available for download (build ID: undefined; platform: undefined).") true;
    Spinner "  Downloading runtime…" false;
    HttpsGet linux_bin_url;
    CreateWriteStream ["tmp"; "qbrt-a1b2c3"; "runtime.tar.bz2"];
    WriteFile ["qbrt"; "dist"; "linux"; "runtime-info.json"] ("{}" +:+ line_feed);
    Spinner (check_mark +:+ "Downloading runtime… done!") true ].
Proof. vm_compute. reflexivity. Qed.

Lemma installRuntime_executor_returns (E : env) (pf : profile) (s : store) :
  exists s' queued, Postinstall.installRuntime_executor E pf s = (Val tt, s', queued).
Proof.
  unfold Postinstall.installRuntime_executor, bind, spinner, emit, modify.
  destruct (String.eqb (platform E) "win32"); [cbn; eauto|].
  destruct (String.eqb (platform E) "darwin"); [cbn; eauto|].
  destruct (String.eqb (platform E) "linux"); [|cbn; eauto].
  cbn. destruct (filePath s); cbn; eauto.
Qed.

(** The callbacks chained on installRuntime never run: registering the whole
    chain does what running the executor does, and nothing else. *)
Lemma installRuntime_links_are_dead (E : env) (pf : profile) (s : store) :
  dropped (Postinstall.installRuntime E pf) s =
  Postinstall.installRuntime_executor E pf (with_next_promise (S (next_promise s)) s).
Proof.
  unfold Postinstall.installRuntime, dropped, chain, fold_left, then_, catch_, new_Promise.
  destruct (installRuntime_executor_returns E pf (with_next_promise (S (next_promise s)) s))
    as (s' & queued & ->).
  reflexivity.
Qed.

(** C5 evaluated: after a run whose download succeeds and after a run whose
    check fails, nothing is left to run, the clean-up callback has not run,
    the scratch directory (and the archive in it) is still there, and
    process.exit() was not called. *)
Example cleanup_does_not_run :
  let downloaded := run 100 (Postinstall.main linux_x64 10) (initial_store ∅) in
  let failed := run 100 (Postinstall.main linux_x64 10) (initial_store installed_X_Y) in
  status downloaded = Some Drained /\
  existsb is_cleanup (trace downloaded) = false /\
  tmp downloaded = Some {[ "runtime.tar.bz2" ]} /\
  filePath downloaded = Some ["tmp"; "qbrt-a1b2c3"; "runtime.tar.bz2"] /\
  status failed = Some Drained /\
  existsb is_cleanup (trace failed) = false /\
  tmp failed = Some ∅ /\
  last (trace failed) = Some (ConsoleError (SyntaxError "[object Object]")).
Proof. repeat split; vm_compute; reflexivity. Qed.

(** In bin/postinstall.js the check is never fulfilled with [true]: whatever
    the record and the answer of the metadata endpoint, parsing the response
    object fails before the comparison. *)
Lemma postinstall_check_never_reports_up_to_date (E : env) (pf : profile)
    (d : gmap string node) :
  JSON_parse E "[object Object]" = None ->
  probe (run 10 (observed (Postinstall.checkForUpdate E pf)) (initial_store d))
  <> Some (Fulfilled (VBool true)).
Proof.
  destruct E as [os cpu dir tmpd parse ? web ? ? ? ? ? ? ? ?], pf as [? info ? ? ? ? ? ? ?].
  simpl. intros Hobject.
  destruct info as [[|c url]|]; unfold run; compute_task; repeat step_loop; try done.
  destruct (entry "runtime-info.json" d) as [[data|files]|]; compute_task.
  - destruct (parse data) as [old|]; compute_task; repeat step_loop; try done.
    destruct (web (String c url)) as [r|e]; compute_task.
    + rewrite Hobject. compute_task. repeat step_loop. done.
    + repeat step_loop. done.
  - destruct (parse "{}") as [old|]; compute_task; repeat step_loop; try done.
    destruct (web (String c url)) as [r|e]; compute_task.
    + rewrite Hobject. compute_task. repeat step_loop. done.
    + repeat step_loop. done.
  - destruct (parse "{}") as [old|]; compute_task; repeat step_loop; try done.
    destruct (web (String c url)) as [r|e]; compute_task.
    + rewrite Hobject. compute_task. repeat step_loop. done.
    + repeat step_loop. done.
Qed.

(** C6 evaluated: the local record and the remote metadata both describe
    build X for platform Y.  No archive is requested; but the runtime
    directory is removed while the script loads, the run reports a failed
    check instead of an up-to-date runtime, and process.exit() is not
    called. *)
Example up_to_date_run_removes_the_runtime :
  let after := run 100 (Postinstall.main linux_x64 10) (initial_store installed_X_Y) in
  json_parse (json_stringify EmptyString build_X_Y +:+ line_feed) = Some build_X_Y /\
  isUpToDate build_X_Y build_X_Y = Normal true /\
  entry "runtime" installed_X_Y = Some (Dir {[ ["firefox"] := "ELF" ]}) /\
  entry "runtime" (dist after) = None /\
  trace after =
    [ Spinner "  Setting up runtime…" false;
      EnsureDirSync ["qbrt"; "dist"; "linux"];
      MkdtempSync ["tmp"; "qbrt-a1b2c3"];
      Spinner "  Checking runtime…" false;
      ReadFile ["qbrt"; "dist"; "linux"; "runtime-info.json"];
      Spinner "  Installing runtime…" false;
      RemoveSync (Some ["qbrt"; "dist"; "linux"; "runtime"]);
      Decompress None ["qbrt"; "dist"; "linux"];
      UnhandledRejection (TypeError "Input file required");
      HttpsGet linux_info_url;
      Spinner (cross_mark +:+ "Checking runtime… failed!") true;
      ConsoleError (SyntaxError "[object Object]") ] /\
  existsb reports_up_to_date (trace after) = false /\
  status after = Some Drained.
Proof. repeat split; vm_compute; reflexivity. Qed.

(** ** The disk image on macOS *)

(** A nonzero exit code of [hdiutil attach] makes the chain inside the
    executor throw an Error that names the code, and nothing is copied. *)
Lemma attach_failure_throws (E : env) (pf : profile) (d : gmap string node) (code : N) :
  platform E = "darwin" -> hdiutil_attach E = Exited (Some code) -> code <> 0%N ->
  let after := run 20 (Postinstall.installRuntime_executor E pf)
                 (with_tmp (Some ∅) (initial_store d)) in
  trace after =
    [ Spinner "  Installing runtime…" false;
      Spawn "hdiutil" [ "attach"; "undefined"; "-mountpoint";
                        show_path (path_join (tmpdir E) ["volume"]); "-nobrowse"; "-quiet" ];
      UnhandledRejection (Error_ ("'hdiutil attach' exited with code " +:+ pretty code)) ] /\
  dist after = d /\ status after = Some Drained.
Proof.
  destruct E as [os cpu dir tmpd ? ? ? ? attach detach vol ? ? ? ?], pf; simpl.
  intros -> -> Hcode.
  unfold run; compute_task. step_loop.
  destruct code as [|c]; [done|]. compute_task. repeat step_loop. by repeat split.
Qed.

(** The same for [hdiutil detach], after the bundle has been copied. *)
Lemma detach_failure_throws (E : env) (pf : profile) (d : gmap string node)
    (code : N) (bundle : node) :
  platform E = "darwin" -> hdiutil_attach E = Exited (Some 0%N) ->
  volume E !! "FirefoxNightly.app" = Some bundle ->
  hdiutil_detach E = Exited (Some code) -> code <> 0%N ->
  let after := run 20 (Postinstall.installRuntime_executor E pf)
                 (with_tmp (Some ∅) (initial_store d)) in
  last (trace after) =
    Some (UnhandledRejection (Error_ ("'hdiutil detach' exited with code " +:+ pretty code))) /\
  status after = Some Drained.
Proof.
  destruct E as [os cpu dir tmpd ? ? ? ? attach detach vol ? ? ? ?], pf; simpl.
  intros -> -> Hbundle -> Hcode.
  change (entry "FirefoxNightly.app" vol = Some bundle) in Hbundle.
  unfold run; compute_task. step_loop. step_loop.
  rewrite has_name_add. compute_task. rewrite Hbundle. compute_task.
  repeat step_loop.
  destruct code as [|c]; [done|]. compute_task. repeat step_loop. by split.
Qed.

(** C7 evaluated: [hdiutil attach] exits with code 1.  The Error is thrown
    and nothing is copied, but the error reaches no handler of the script:
    no failure is reported for the set-up, the clean-up callback does not
    run, the scratch directory stays and process.exit() is not called. *)
Example attach_failure_is_not_cleaned_up :
  let after := run 100 (Postinstall.main darwin_x64 10) (initial_store installed_bundle) in
  hdiutil_attach darwin_x64 = Exited (Some 1%N) /\
  trace after =
    [ Spinner "  Setting up runtime…" false;
      EnsureDirSync ["qbrt"; "dist"; "darwin"];
      MkdtempSync ["tmp"; "qbrt-a1b2c3"];
      Spinner "  Checking runtime…" false;
      ReadFile ["qbrt"; "dist"; "darwin"; "runtime-info.json"];
      Spinner "  Installing runtime…" false;
      Spawn "hdiutil" [ "attach"; "undefined"; "-mountpoint"; "tmp/qbrt-a1b2c3/volume";
                        "-nobrowse"; "-quiet" ];
      HttpsGet (nightly_03_02_02 +:+ ".mac.json");
      Spinner (check_mark +:+ "Checking runtime… done! New version available for download (build ID: undefined; platform: undefined).") true;
      Spinner "  Downloading runtime…" false;
      HttpsGet "https://download.mozilla.org/?product=firefox-nightly-latest-ssl&lang=en-US&os=osx";
      UnhandledRejection (Error_ "'hdiutil attach' exited with code 1");
      CreateWriteStream ["tmp"; "qbrt-a1b2c3"; "runtime.tar.bz2"];
      WriteFile ["qbrt"; "dist"; "darwin"; "runtime-info.json"] ("{}" +:+ line_feed);
      Spinner (check_mark +:+ "Downloading runtime… done!") true ] /\
  existsb is_copy (trace after) = false /\
  existsb is_cleanup (trace after) = false /\
  tmp after = Some {[ "runtime.tar.bz2" ]} /\
  status after = Some Drained.
Proof. repeat split; vm_compute; reflexivity. Qed.

(** * Further properties *)

(** ** The comparison of the descriptors *)

Lemma strict_eq_refl (v : jsval) : strict_eq v v = negb (compound v).
Proof.
  destruct v as [[| b | n | s | items | props]|]; simpl; try done.
  - by destruct b.
  - apply Z.eqb_refl.
  - apply String.eqb_refl.
Qed.

(** X1: the comparison of lines 120-121 throws exactly when one of the two
    documents is [null], and what it throws is then the TypeError for the
    first property read, [buildid]; on any other pair of documents it yields
    a decision. *)
Theorem isUpToDate_throws_iff_null (current old : json) :
  match isUpToDate current old with
  | Throw e =>
      (current = JNull \/ old = JNull) /\
      e = TypeError "Cannot read property 'buildid' of null"
  | Normal _ => current <> JNull /\ old <> JNull
  end.
Proof.
  unfold isUpToDate.
  destruct current, old; simpl; auto;
    repeat match goal with
           | |- context [if ?b then _ else _] => destruct b
           end; simpl; auto.
Qed.

(** X2: a descriptor compared with a copy of itself is up to date unless its
    [buildid] or its [target_alias] holds an array or an object: two parsed
    documents never share such a value, so [===] is false on them. *)
Theorem isUpToDate_same_document (props : list (string * json)) :
  isUpToDate (JObj props) (JObj props) =
  Normal (negb (compound (lookup_prop "buildid" props))
          && negb (compound (lookup_prop "target_alias" props))).
Proof. by rewrite isUpToDate_objects, !strict_eq_refl. Qed.

(** ** Redirects *)

Lemma last_char_append (stem suffix : string) :
  suffix <> EmptyString -> last_char (stem +:+ suffix) = last_char suffix.
Proof.
  intros Hne. induction stem as [|c stem IH]; [done|].
  change (String c stem +:+ suffix) with (String c (stem +:+ suffix)).
  simpl. rewrite IH. destruct (stem +:+ suffix) eqn:Happ; [|done].
  destruct stem; [by simpl in Happ | discriminate].
Qed.

Lemma replace_installer_suffix_cases (location : string) :
  (exists stem, location = stem +:+ ".installer.exe" /\
                replace_installer_suffix location = stem +:+ ".zip") \/
  ((forall stem, location <> stem +:+ ".installer.exe") /\
   replace_installer_suffix location = location).
Proof.
  induction location as [|c rest IH].
  - right. split; [|reflexivity]. intros [|? ?]; discriminate.
  - destruct (String.eqb_spec (String c rest) ".installer.exe") as [Heq|Hne].
    + left. exists EmptyString. split; [exact Heq|]. by rewrite Heq.
    + destruct IH as [(stem & -> & Hrep) | [Hno Hrep]].
      * left. exists (String c stem). split; [reflexivity|].
        apply (replace_installer_suffix_match (String c stem)).
      * right. assert (Hno' : forall stem, String c rest <> stem +:+ ".installer.exe").
        { intros [|c' stem] Heq; [by apply Hne|].
          injection Heq as -> ->. by apply (Hno stem). }
        split; [exact Hno'|]. by apply replace_installer_suffix_other.
Qed.

Lemma replace_installer_suffix_result (location stem : string) :
  replace_installer_suffix location <> stem +:+ ".installer.exe".
Proof.
  destruct (replace_installer_suffix_cases location) as [(stem' & -> & ->) | [Hno ->]].
  - intros Heq. apply (f_equal last_char) in Heq.
    rewrite !last_char_append in Heq by discriminate. discriminate.
  - apply Hno.
Qed.

(** X3: on win32 the URL that [download] follows after a redirect never ends
    in [.installer.exe], whatever the location header says; and on every
    platform rewriting a target a second time changes nothing. *)
Theorem followed_url_is_never_an_installer (location : string) :
  (forall stem, redirect_target "win32" location <> stem +:+ ".installer.exe") /\
  (forall platform,
     redirect_target platform (redirect_target platform location)
     = redirect_target platform location).
Proof.
  split.
  - intros stem. apply replace_installer_suffix_result.
  - intros platform. unfold redirect_target.
    destruct (String.eqb platform "win32"); [|reflexivity].
    apply replace_installer_suffix_other. intros stem.
    apply replace_installer_suffix_result.
Qed.

Lemma download_queues (E : env) (n : nat) (resolve : reaction value)
    (reject : reaction error) (url : string) (s : store) :
  Postinstall.download E n resolve reject url s =
  (Val tt, with_trace (trace s ++ [HttpsGet url]) s,
   [(false, Task (download_callback E n resolve reject url))]).
Proof. destruct n; reflexivity. Qed.


Lemma download_ends_head (E : env) (url : string) (visited : list string)
    (outcome : get_result) :
  download_ends E url visited outcome -> exists rest, visited = url :: rest.
Proof. destruct 1; eauto. Qed.

Lemma with_trace_twice (s : store) (evs evs' : list event) :
  with_trace (trace (with_trace (trace s ++ evs) s) ++ evs') (with_trace (trace s ++ evs) s)
  = with_trace (trace s ++ evs ++ evs') s.
Proof. unfold with_trace; cbn. by rewrite <- app_assoc. Qed.

(** The callbacks of a download, one per URL visited, run one after the
    other; the last one settles the promise. *)
Lemma download_callbacks (E : env) (resolve : reaction value) (reject : reaction error)
    (url : string) (visited : list string) (outcome : get_result) :
  download_ends E url visited outcome ->
  forall (n fuel total : nat) (s : store),
    length visited <= S n -> total = length visited + fuel ->
    event_loop total [] [Task (download_callback E n resolve reject url)] s =
    continue_with fuel
      (download_settles resolve reject outcome
         (with_trace (trace s ++ List.map HttpsGet (tail visited)) s)).
Proof.
  induction 1 as [url r Hget Hloc | url e Hget | url location r visited outcome Hget Hloc Hrest IH];
    intros n fuel total s Hlen ->.
  - cbn [length Nat.add tail List.map]. rewrite event_loop_macro.
    unfold run_task, download_callback. rewrite Hget, Hloc. cbn [download_settles].
    replace (with_trace (trace s ++ []) s) with s
      by (destruct s; unfold with_trace; cbn; by rewrite app_nil_r).
    unfold continue_with. destruct (resolve _ s) as [[[]]]; cbn; rewrite ?app_nil_r; reflexivity.
  - cbn [length Nat.add tail List.map]. rewrite event_loop_macro.
    unfold run_task, download_callback. rewrite Hget. cbn [download_settles].
    replace (with_trace (trace s ++ []) s) with s
      by (destruct s; unfold with_trace; cbn; by rewrite app_nil_r).
    unfold continue_with. destruct (reject _ s) as [[[]]]; cbn; rewrite ?app_nil_r; reflexivity.
  - destruct (download_ends_head _ _ _ _ Hrest) as [rest ->].
    destruct n as [|n]; [simpl in Hlen; lia|].
    cbn [length Nat.add tail List.map]. rewrite event_loop_macro.
    unfold run_task at 1. unfold download_callback at 1. rewrite Hget, Hloc.
    rewrite download_queues. cbn [micros macros List.filter List.map fst snd negb app].
    rewrite (IH n fuel (S (length rest + fuel))
               (with_trace (trace s ++ [HttpsGet (redirect_target (platform E) location)]) s))
      by (simpl in *; lia).
    cbn [tail]. by rewrite with_trace_twice.
Qed.

(** X4: [download(url)] requests the URL, then the target of every redirect
    in turn (rewritten on win32), and settles with the first response that
    carries no location, or with the error of the request that failed. *)
Theorem download_follows_redirects (E : env) (n : nat) (url : string)
    (visited : list string) (outcome : get_result) (s : store) :
  download_ends E url visited outcome ->
  length visited <= S n ->
  let after := run (length visited + 1)
                 (Postinstall.download E n
                    (fun v => modify (with_probe (Some (Fulfilled v))))
                    (fun e => modify (with_probe (Some (Rejected e)))) url) s in
  trace after = (trace s ++ List.map HttpsGet visited)%list /\
  probe after = Some (match outcome with
                      | Response r => Fulfilled (VResponse r)
                      | NetError e => Rejected e
                      end) /\
  status after = Some Drained.
Proof.
  intros Hends Hlen after. subst after.
  destruct (download_ends_head _ _ _ _ Hends) as [rest ->].
  unfold run. rewrite download_queues.
  cbn [micros macros List.filter List.map fst snd negb].
  rewrite (download_callbacks _ _ _ _ _ _ Hends n 1 _ _ Hlen eq_refl).
  cbn [tail]. rewrite with_trace_twice.
  by destruct outcome.
Qed.

(** X4, an instance: the win64 installer link redirects to a mirror, and the
    mirror's [.zip] is what is requested next. *)
Lemma download_follows_redirects_witness :
  let after := run 3 (Postinstall.download (sample_env "win32" "x64" mirror_web) 10
                        (fun v => modify (with_probe (Some (Fulfilled v))))
                        (fun e => modify (with_probe (Some (Rejected e))))
                        (DOWNLOAD_URL_for (Some "win64"))) (initial_store ∅) in
  trace after = [ HttpsGet (DOWNLOAD_URL_for (Some "win64")); HttpsGet mirror_zip ] /\
  status after = Some Drained.
Proof.
  intros after.
  destruct (download_follows_redirects (sample_env "win32" "x64" mirror_web) 10
     (DOWNLOAD_URL_for (Some "win64")) [DOWNLOAD_URL_for (Some "win64"); mirror_zip]
     (Response {| headers_location := None; headers_content_type := Some "application/zip";
                  body := "PK"; body_error := None |})
     (initial_store ∅)) as (Htrace & _ & Hstatus).
  - eapply follows_redirect; [vm_compute; reflexivity | vm_compute; reflexivity |].
    apply ends_with_response; vm_compute; reflexivity.
  - simpl. lia.
  - split; [exact Htrace | exact Hstatus].
Defined.

(** ** The binary URL *)

(** X5: the URL that the download starts from.  On win32 it is the pinned
    nightly's [.installer.exe] and on linux the pinned [.tar.bz2]; on darwin
    the table of binaries is keyed [mac] while [DOWNLOAD_OS] is [osx], so the
    URL is the generic endpoint for the latest nightly although the metadata
    URL is the pinned one; on any other platform it is the generic endpoint
    with [os=undefined]. *)
Theorem binary_url_by_platform (E : env) (s : store) (pf : profile) :
  Postinstall.prelude E s = (Val pf, s, []) ->
  (platform E = "win32" ->
     exists stem, DOWNLOAD_URL pf = "https://archive.mozilla.org/" +:+ stem +:+ ".installer.exe") /\
  (platform E = "linux" ->
     exists stem, DOWNLOAD_URL pf = "https://archive.mozilla.org/" +:+ stem +:+ ".tar.bz2") /\
  (platform E = "darwin" ->
     download_os pf = Some "osx" /\
     index DOWNLOAD_BIN_URLS (download_os pf) = None /\
     DOWNLOAD_URL pf = generic_download_url "osx" /\
     DOWNLOAD_INFO_URL pf = Some (nightly_03_02_02 +:+ ".mac.json")) /\
  (platform E <> "win32" -> platform E <> "linux" -> platform E <> "darwin" ->
     DOWNLOAD_URL pf = generic_download_url "undefined").
Proof.
  destruct E as [os cpu dir tmpd ? ? ? ? ? ? ? ? ? ? ?]; simpl.
  unfold Postinstall.prelude, bind, lift, DOWNLOAD_OS; simpl.
  intros Hpre. split; [|split; [|split]].
  - intros ->. simpl in Hpre.
    destruct (String.eqb cpu "ia32"); [|destruct (String.eqb cpu "x64")];
      simpl in Hpre; [| |discriminate]; injection Hpre as <-; simpl.
    + by exists "pub/firefox/nightly/2017/04/2017-04-02-03-02-02-mozilla-central/firefox-55.0a1.en-US.win32".
    + by exists "pub/firefox/nightly/2017/04/2017-04-02-03-02-02-mozilla-central/firefox-55.0a1.en-US.win64".
  - intros ->. simpl in Hpre.
    destruct (String.eqb cpu "ia32"); [|destruct (String.eqb cpu "x64")];
      simpl in Hpre; [| |discriminate]; injection Hpre as <-; simpl.
    + by exists "pub/firefox/nightly/2017/04/2017-04-02-10-01-59-mozilla-central/firefox-55.0a1.en-US.linux-i686".
    + by exists "pub/firefox/nightly/2017/04/2017-04-02-10-01-59-mozilla-central/firefox-55.0a1.en-US.linux-x86_64".
  - intros ->. simpl in Hpre. injection Hpre as <-. simpl. by repeat split.
  - intros Hw Hl Hd.
    destruct (String.eqb_spec os "win32"); [done|].
    destruct (String.eqb_spec os "linux"); [done|].
    destruct (String.eqb_spec os "darwin"); [done|].
    simpl in Hpre. injection Hpre as <-. reflexivity.
Qed.

(** X5, an instance: linux/x64. *)
Lemma binary_url_by_platform_witness :
  exists stem,
    DOWNLOAD_URL linux_profile = "https://archive.mozilla.org/" +:+ stem +:+ ".tar.bz2".
Proof.
  exact (proj1 (proj2 (binary_url_by_platform linux_with_tarball (initial_store ∅)
                         linux_profile eq_refl)) eq_refl).
Defined.

(** ** More on the install step *)

Lemma expand_absent (archive disk : gmap string node) (name : string) :
  archive !! name = None -> entry name (expand archive disk) = entry name disk.
Proof. intros Hnone. rewrite entry_expand, Hnone. unfold entry. by destruct (disk !! name). Qed.

Lemma unpack_and_rename_frame (archive disk : gmap string node) (name : string) :
  name <> "runtime" -> name <> "firefox" -> archive !! name = None ->
  entry name (unpack_and_rename archive disk) = entry name disk.
Proof.
  intros Hr Hf Hnone. unfold unpack_and_rename.
  destruct (clashes archive disk); [by apply expand_absent|].
  destruct (entry "firefox" (expand archive disk)) as [n|]; [|by apply expand_absent].
  destruct (can_replace n _); [|by apply expand_absent].
  unfold put_entry, drop_entry, entry.
  rewrite lookup_insert_ne, lookup_delete_ne by done. by apply expand_absent.
Qed.

Lemma install_result_frame (E : env) (archive : option path) (d : gmap string node)
    (name : string) :
  name <> "runtime" -> name <> "firefox" ->
  (forall file a, archive = Some file -> archive_at E file = Normal a -> a !! name = None) ->
  entry name (install_result E archive d) = entry name d.
Proof.
  intros Hr Hf Harch. unfold install_result.
  assert (Hdrop : entry name (drop_entry "runtime" d) = entry name d).
  { unfold entry, drop_entry. by rewrite lookup_delete_ne. }
  destruct archive as [file|]; [|exact Hdrop].
  destruct (archive_at E file) as [a|e] eqn:Ha; [|exact Hdrop].
  rewrite unpack_and_rename_frame; eauto.
Qed.

Lemma install_result_darwin_frame (E : env) (d : gmap string node) (name : string) :
  name <> "Runtime.app" ->
  entry name (install_result_darwin E d) = entry name d.
Proof.
  intros Hne. unfold install_result_darwin.
  destruct (hdiutil_attach E) as [code|e]; [|done].
  destruct (truthy (VExitCode code)); [done|].
  destruct (if succeeded code then _ else _) as [bundle|].
  - rewrite expand_absent.
    + unfold entry, drop_entry. by rewrite lookup_delete_ne.
    + unfold put_entry. by rewrite lookup_insert_ne.
  - unfold entry, drop_entry. by rewrite lookup_delete_ne.
Qed.

(** X6: the install step touches nothing else in the dist directory: an
    entry other than [runtime], [firefox] and [Runtime.app] that the archive
    does not hold at its top level is after the step what it was before.
    The version record is such an entry. *)
Theorem install_leaves_other_entries (E : env) (pf : profile) (archive : option path)
    (d : gmap string node) (name : string) :
  name <> "runtime" -> name <> "firefox" -> name <> "Runtime.app" ->
  (forall file a, archive = Some file -> archive_at E file = Normal a -> a !! name = None) ->
  entry name (install_once E pf archive d) = entry name d.
Proof.
  intros Hr Hf Ha Harch.
  destruct (decide (platform E = "win32")) as [Hw|Hw].
  { rewrite (install_once_win32 _ _ _ _ Hw). by apply install_result_frame. }
  destruct (decide (platform E = "linux")) as [Hl|Hl].
  { rewrite (install_once_linux _ _ _ _ Hl). by apply install_result_frame. }
  destruct (decide (platform E = "darwin")) as [Hd|Hd].
  { rewrite (install_once_darwin _ _ _ _ Hd). by apply install_result_darwin_frame. }
  by rewrite install_once_elsewhere.
Qed.

(** X6, an instance: the version record survives the installation of the
    nightly tarball. *)
Lemma install_leaves_other_entries_witness :
  entry "runtime-info.json"
    (install_once linux_with_tarball linux_profile (Some downloaded_tarball) installed_X_Y)
  = entry "runtime-info.json" installed_X_Y.
Proof.
  apply install_leaves_other_entries; try discriminate.
  intros file a _ [= <-]. reflexivity.
Defined.

Lemma unpack_single_directory (files : gmap path string) (disk : gmap string node) :
  disk !! "runtime" = None -> disk !! "firefox" = None ->
  unpack_and_rename {[ "firefox" := Dir files ]} disk = <["runtime" := Dir files]> disk.
Proof.
  intros Hr Hf.
  assert (Hclash : clashes {[ "firefox" := Dir files ]} disk = false).
  { unfold clashes. apply bool_decide_eq_false. rewrite map_Exists_lookup.
    intros (name & new & [<- <-]%lookup_singleton_Some & Hc).
    unfold clash_at, entry in Hc. by rewrite Hf in Hc. }
  assert (Hfox : entry "firefox" (expand {[ "firefox" := Dir files ]} disk) = Some (Dir files)).
  { rewrite entry_expand, lookup_singleton_eq, Hf. reflexivity. }
  assert (Hrun : entry "runtime" (expand {[ "firefox" := Dir files ]} disk) = None).
  { rewrite expand_absent; [exact Hr|]. by rewrite lookup_singleton_ne. }
  unfold unpack_and_rename. rewrite Hclash, Hfox, Hrun. simpl.
  apply map_eq. intros name. unfold put_entry, drop_entry.
  destruct (decide (name = "runtime")) as [->|Hne]; [by rewrite !lookup_insert_eq|].
  rewrite !lookup_insert_ne by done.
  destruct (decide (name = "firefox")) as [->|Hne']; [by rewrite lookup_delete_eq|].
  rewrite lookup_delete_ne by done.
  change (entry name (expand {[ "firefox" := Dir files ]} disk) = disk !! name).
  rewrite expand_absent; [done|]. by rewrite lookup_singleton_ne.
Qed.

(** X7: on linux and win32, with an archive whose only top-level entry is
    the directory [firefox] and a dist directory that holds no [firefox]
    entry, the install step leaves the dist directory as it was except that
    [runtime] is exactly the archive's directory: no file of the runtime
    installed before remains. *)
Theorem install_replaces_runtime_by_archive (E : env) (pf : profile) (file : path)
    (files : gmap path string) (d : gmap string node) :
  platform E = "linux" \/ platform E = "win32" ->
  archive_at E file = Normal {[ "firefox" := Dir files ]} ->
  d !! "firefox" = None ->
  install_once E pf (Some file) d = <["runtime" := Dir files]> d.
Proof.
  intros Hos Harch Hfox.
  assert (Hres : install_result E (Some file) d = <["runtime" := Dir files]> d).
  { unfold install_result. rewrite Harch. rewrite unpack_single_directory.
    - unfold drop_entry. apply insert_delete_eq.
    - apply lookup_delete_eq.
    - unfold drop_entry. by rewrite lookup_delete_ne. }
  destruct Hos as [Hl|Hw].
  - by rewrite (install_once_linux _ _ _ _ Hl).
  - by rewrite (install_once_win32 _ _ _ _ Hw).
Qed.

(** X7, an instance: the nightly tarball over an installed runtime. *)
Lemma install_replaces_runtime_by_archive_witness :
  install_once linux_with_tarball linux_profile (Some downloaded_tarball) installed_X_Y
  = <["runtime" := Dir {[ ["firefox-bin"] := "nightly build" ]}]> installed_X_Y.
Proof.
  apply install_replaces_runtime_by_archive; [by left | reflexivity | vm_compute; reflexivity].
Defined.

(** X8: on linux and win32, when [filePath] is undefined or the file it
    names cannot be read as an archive, the install step removes the
    installed runtime and puts nothing in its place. *)
Theorem install_without_archive_deletes_runtime (E : env) (pf : profile)
    (archive : option path) (d : gmap string node) :
  platform E = "linux" \/ platform E = "win32" ->
  (archive = None \/ exists file e, archive = Some file /\ archive_at E file = Throw e) ->
  install_once E pf archive d = delete "runtime" d.
Proof.
  intros Hos Hnone.
  assert (Hres : install_result E archive d = delete "runtime" d).
  { unfold install_result. destruct Hnone as [-> | (file & e & -> & ->)]; reflexivity. }
  destruct Hos as [Hl|Hw].
  - by rewrite (install_once_linux _ _ _ _ Hl).
  - by rewrite (install_once_win32 _ _ _ _ Hw).
Qed.

(** X8, an instance: no file was downloaded. *)
Lemma install_without_archive_deletes_runtime_witness :
  install_once linux_with_tarball linux_profile None installed_X_Y
  = delete "runtime" installed_X_Y.
Proof.
  apply install_without_archive_deletes_runtime; [by left | by left].
Defined.

(** X9: on darwin, when [hdiutil attach] exits with code 0 and the image
    holds [FirefoxNightly.app], the install step leaves the dist directory
    as it was except that [Runtime.app] is exactly that bundle. *)
Theorem darwin_install_copies_bundle (E : env) (pf : profile) (image : option path)
    (d : gmap string node) (bundle : node) :
  platform E = "darwin" ->
  hdiutil_attach E = Exited (Some 0%N) ->
  volume E !! "FirefoxNightly.app" = Some bundle ->
  install_once E pf image d = <["Runtime.app" := bundle]> d.
Proof.
  intros Hd Hattach Hvol. rewrite (install_once_darwin _ _ _ _ Hd).
  unfold install_result_darwin. rewrite Hattach. simpl. unfold entry. rewrite Hvol.
  apply map_eq. intros name.
  change (entry name (expand (put_entry "Runtime.app" bundle ∅) (drop_entry "Runtime.app" d))
          = <["Runtime.app" := bundle]> d !! name).
  rewrite entry_expand. unfold put_entry, drop_entry.
  destruct (decide (name = "Runtime.app")) as [->|Hne].
  - by rewrite !lookup_insert_eq, lookup_delete_eq.
  - rewrite !lookup_insert_ne, lookup_delete_ne, lookup_empty by done.
    by destruct (d !! name).
Qed.

Example darwin_profile_resolved :
  Postinstall.prelude (darwin_with_image nightly_image) (initial_store ∅) =
  (Val darwin_profile, initial_store ∅, []).
Proof. vm_compute. reflexivity. Qed.

(** X9, an instance: the nightly image over an installed bundle. *)
Lemma darwin_install_copies_bundle_witness :
  install_once (darwin_with_image nightly_image) darwin_profile
    (Some downloaded_image) installed_bundle
  = {[ "Runtime.app" := Dir {[ ["Contents"; "MacOS"; "firefox"] := "nightly build" ]} ]}.
Proof.
  rewrite (darwin_install_copies_bundle (darwin_with_image nightly_image) darwin_profile
             (Some downloaded_image) installed_bundle
             (Dir {[ ["Contents"; "MacOS"; "firefox"] := "nightly build" ]})
             eq_refl eq_refl eq_refl).
  reflexivity.
Defined.

(** X10: on darwin, when [hdiutil attach] is killed by a signal (its exit
    code is [null], which the test [if (exitCode)] lets pass) or the image
    holds no [FirefoxNightly.app], the installed [Runtime.app] has been
    removed by the time the copy fails; the failure is an unhandled
    rejection, and [hdiutil detach] is never run, so an image that was
    attached stays mounted. *)
Theorem darwin_failed_copy_is_not_undone (E : env) (pf : profile) (image : option path)
    (d : gmap string node) :
  platform E = "darwin" ->
  hdiutil_attach E = Exited None \/
  (hdiutil_attach E = Exited (Some 0%N) /\ entry "FirefoxNightly.app" (volume E) = None) ->
  let after := run 20 (Postinstall.installRuntime_executor E pf)
                 (with_filePath image (with_tmp (Some ∅) (initial_store d))) in
  dist after = drop_entry "Runtime.app" d /\
  tmp after = Some (mounted_after (hdiutil_attach E)) /\
  existsb is_detach (trace after) = false /\
  last (trace after) =
    Some (UnhandledRejection
            (SystemError "ENOENT"
               (show_path (path_join (Postinstall.mountPoint E) ["FirefoxNightly.app"])))) /\
  status after = Some Drained.
Proof.
  intros Hos Hcase.
  unfold Postinstall.installRuntime_executor, Postinstall.copy_bundle.
  rewrite Hos.
  destruct Hcase as [-> | [-> ->]]; cbv zeta; repeat split; reflexivity.
Qed.

(** X10, an instance: an image without the application bundle. *)
Lemma darwin_failed_copy_is_not_undone_witness :
  let after := run 20 (Postinstall.installRuntime_executor (darwin_with_image ∅) darwin_profile)
                 (with_filePath (Some downloaded_image)
                    (with_tmp (Some ∅) (initial_store installed_bundle))) in
  dist after = ∅ /\ tmp after = Some {[ "volume" ]}.
Proof.
  intros after.
  destruct (darwin_failed_copy_is_not_undone (darwin_with_image ∅) darwin_profile
              (Some downloaded_image) installed_bundle eq_refl
              ltac:(right; split; reflexivity))
    as (Hdist & Htmp & _).
  split.
  - etransitivity; [exact Hdist|]. reflexivity.
  - etransitivity; [exact Htmp|]. reflexivity.
Defined.

(** ** More on the xulapp graft *)

Ltac expose_copies :=
  unfold XulApp.install, XulApp.install_with, XulApp.files, pify_ensureDir;
  cbn [List.map chain fold_left]; unfold pify_copy.

Ltac name_copies E :=
  repeat match goal with
  | |- context [fs_copy E ?a ?b] => generalize (fs_copy E a b); intro
  end.

Ltac each_outcome :=
  repeat match goal with o : option error |- _ => destruct o end.

Lemma xulapp_install_run (E : env) (d : gmap string node) :
  let after := run 40 (observed (XulApp.install E)) (initial_store d) in
  (trace after, probe after, status after) =
  (install_calls E, Some (Rejected (install_error E)), Some Drained).
Proof.
  unfold install_calls, install_error, xulapp_target, first_copy_failure,
    xulapp_sources, xulapp_targets.
  expose_copies. cbn [omap list_omap].
  destruct (fs_ensureDir E _); [reflexivity|].
  name_copies E. each_outcome; reflexivity.
Qed.


(** X11: when the target directory cannot be made, [install()] is rejected
    with the error of fs.ensureDir and no copy is attempted. *)
Theorem xulapp_directory_failure_stops_install (E : env) (d : gmap string node) (e : error) :
  fs_ensureDir E (xulapp_target E) = Some e ->
  let after := run 40 (observed (XulApp.install E)) (initial_store d) in
  probe after = Some (Rejected e) /\
  trace after = [ EnsureDir (xulapp_target E) ] /\
  status after = Some Drained.
Proof.
  intros Hdir after.
  pose proof (xulapp_install_run E d) as Hrun. fold after in Hrun.
  unfold install_calls, install_error in Hrun. rewrite Hdir in Hrun.
  injection Hrun as Htrace Hprobe Hstatus.
  by repeat split.
Qed.

(** X11, an instance: a dist directory that cannot be written to. *)
Lemma xulapp_directory_failure_stops_install_witness :
  let after := run 40 (observed (XulApp.install linux_no_directory)) (initial_store ∅) in
  probe after = Some (Rejected (SystemError "EACCES" "qbrt/dist/linux/runtime/qbrt")) /\
  trace after = [ EnsureDir ["qbrt"; "dist"; "linux"; "runtime"; "qbrt"] ].
Proof.
  intros after.
  destruct (xulapp_directory_failure_stops_install linux_no_directory ∅
              (SystemError "EACCES" "qbrt/dist/linux/runtime/qbrt") eq_refl)
    as (Hprobe & Htrace & _).
  split; [exact Hprobe | exact Htrace].
Defined.




(** ** Runs of the check and of the download *)


Lemma checkForUpdate_unfold (E : env) (pf : profile) :
  Postinstall.checkForUpdate E pf =
  new_Promise (fun resolve reject =>
    spinner "  Checking runtime…" false ;;
    match truthy_string (DOWNLOAD_INFO_URL pf) with
    | Some url =>
        fs_readFile (runtimeInfo pf) "runtime-info.json" (on_record E url resolve reject)
    | None => resolve VUndefined
    end).
Proof. reflexivity. Qed.

Lemma truthy_string_None (x : option string) :
  truthy_string x = None -> x = None \/ x = Some EmptyString.
Proof. destruct x as [[|c rest]|]; simpl; intros Hx; auto; discriminate. Qed.

Ltac compute_step :=
  lazy -[event_loop entry drop_entry put_entry add_name remove_name has_name no_names
         expand clashes can_replace path_join pretty isUpToDate left_behind
         Postinstall.after_check Postinstall.downloadRuntime Postinstall.download
         Postinstall.check_failed Postinstall.checkForUpdate
         Part000.after_check Part000.downloadRuntime
         download_callback continue_with length index ToString truthy_json
         on_response until_written on_downloaded on_download_error
         on_record on_metadata https_get
         FILE_EXTENSIONS DOWNLOAD_INFO_URLS DOWNLOAD_BIN_URLS
         String.eq_dec String.countable list_eq_dec list_countable].

Ltac step_micro := rewrite event_loop_micro; compute_step.
Ltac step_macro := rewrite event_loop_macro; compute_step.
Ltac step_idle := rewrite event_loop_idle; compute_step.
Ltac step_on := first [ step_macro | step_micro | step_idle ].









(** X16: when there is no metadata URL (a platform outside the table), the
    check reads no record and makes no request.  In bin/postinstall.js it is
    fulfilled with undefined, which sends the script on to the download; in
    the second copy [currentFirefoxInfo] is still undefined when the next
    callback reads its [buildid], so the chain ends in
    [Checking runtime… failed!] with that TypeError and nothing is
    downloaded. *)
Theorem check_without_metadata_url (E : env) (inspect : jsval -> string) (pf : profile)
    (n : nat) (d : gmap string node) :
  truthy_string (DOWNLOAD_INFO_URL pf) = None ->
  let checked := run 10 (observed (Postinstall.checkForUpdate E pf)) (at_line_100 d) in
  let second := run 10 (dropped (Part000.check_chain E inspect pf n)) (at_line_103 d) in
  (trace checked = [ Spinner "  Checking runtime…" false ] /\
   probe checked = Some (Fulfilled VUndefined) /\
   status checked = Some Drained) /\
  (trace second =
     [ Spinner "  Checking runtime…" false;
       Spinner (cross_mark +:+ "Checking runtime… failed!") true;
       ConsoleError (TypeError "Cannot read property 'buildid' of undefined") ] /\
   status second = Some Drained).
Proof.
  destruct E as [os cpu dir tmpd parse ? web ? ? ? ? ? ? ? ?],
           pf as [pos info durl ddir idir rdir edir rinfo jar].
  cbn [DOWNLOAD_INFO_URL].
  intros [-> | ->]%truthy_string_None; cbv zeta; (split; [by vm_compute|]).
  - unfold run, Part000.check_chain. compute_step. step_on.
    unfold Part000.after_check. compute_step. unfold Postinstall.check_failed.
    repeat step_on. by split.
  - unfold run, Part000.check_chain. compute_step. step_on.
    unfold Part000.after_check. compute_step. unfold Postinstall.check_failed.
    repeat step_on. by split.
Qed.

Example freebsd_profile_resolved :
  exists s, Postinstall.prelude (sample_env "freebsd" "x64" serves_X_Y) (initial_store ∅)
            = (Val freebsd_profile, s, []).
Proof. eexists. vm_compute. reflexivity. Qed.

(** X16, an instance: the profile of freebsd/x64. *)
Lemma check_without_metadata_url_witness :
  trace (run 10 (observed (Postinstall.checkForUpdate (sample_env "freebsd" "x64" serves_X_Y)
                             freebsd_profile)) (at_line_100 ∅))
  = [ Spinner "  Checking runtime…" false ].
Proof.
  exact (proj1 (proj1 (check_without_metadata_url (sample_env "freebsd" "x64" serves_X_Y)
                         (fun _ => EmptyString) freebsd_profile 5 ∅ eq_refl))).
Defined.

Lemma readable_record_run (E : env) (pf : profile) (n : nat)
    (d : gmap string node) (url data : string) (old : json) :
  truthy_string (DOWNLOAD_INFO_URL pf) = Some url ->
  entry "runtime-info.json" d = Some (File data) ->
  JSON_parse E data = Some old ->
  JSON_parse E "[object Object]" = None ->
  left_behind (run 20 (dropped (Postinstall.check_chain E pf n)) (at_line_100 d)) =
  ([ Spinner "  Checking runtime…" false;
     ReadFile (runtimeInfo pf);
     HttpsGet url;
     Spinner (cross_mark +:+ "Checking runtime… failed!") true;
     ConsoleError (check_failure E url) ],
   d, Some ∅, None, false, Some (JObj []), Some Drained, None).
Proof.
  destruct E as [os cpu dir tmpd parse ? web ? ? ? ? ? ? ? ?],
           pf as [pos info durl ddir idir rdir edir rinfo jar].
  unfold check_failure.
  cbn [DOWNLOAD_INFO_URL JSON_parse http runtimeInfo].
  intros (c & rest & -> & ->)%truthy_string_Some Hrecord Hold Hobject.
  unfold run, Postinstall.check_chain. rewrite checkForUpdate_unfold. compute_step.
  step_macro.
  rewrite Hrecord. compute_step. unfold on_record. compute_step. rewrite Hold.
  unfold https_get. compute_step.
  step_macro.
  destruct (web (String c rest)) as [r|e]; compute_step.
  - unfold on_metadata. compute_step. rewrite Hobject. compute_step.
    step_micro. unfold Postinstall.check_failed. compute_step.
    step_micro. step_idle. reflexivity.
  - step_micro. unfold Postinstall.check_failed. compute_step.
    step_micro. step_idle. reflexivity.
Qed.

(** X17: in bin/postinstall.js, once a version record exists and parses, the
    first chain never downloads: the metadata is requested, the check is
    rejected (JSON.parse is given the response object, or the request fails)
    and the chain ends in [Checking runtime… failed!]; the dist directory is
    left as it was. *)
Theorem readable_record_means_no_download (E : env) (pf : profile) (n : nat)
    (d : gmap string node) (url data : string) (old : json) :
  truthy_string (DOWNLOAD_INFO_URL pf) = Some url ->
  entry "runtime-info.json" d = Some (File data) ->
  JSON_parse E data = Some old ->
  JSON_parse E "[object Object]" = None ->
  let after := run 20 (dropped (Postinstall.check_chain E pf n)) (at_line_100 d) in
  trace after =
    [ Spinner "  Checking runtime…" false;
      ReadFile (runtimeInfo pf);
      HttpsGet url;
      Spinner (cross_mark +:+ "Checking runtime… failed!") true;
      ConsoleError (check_failure E url) ] /\
  dist after = d /\
  filePath after = None /\
  status after = Some Drained.
Proof.
  intros Hurl Hrecord Hold Hobject after.
  pose proof (readable_record_run E pf n d url data old Hurl Hrecord Hold Hobject) as Hrun.
  fold after in Hrun. unfold left_behind in Hrun.
  injection Hrun as Htrace Hdist _ Hfile _ _ Hstatus _.
  by repeat split.
Qed.

(** X17, an instance: linux with the record of build X. *)
Lemma readable_record_means_no_download_witness :
  let after := run 20 (dropped (Postinstall.check_chain linux_with_tarball linux_profile 5))
                 (at_line_100 installed_X_Y) in
  trace after =
    [ Spinner "  Checking runtime…" false;
      ReadFile ["qbrt"; "dist"; "linux"; "runtime-info.json"];
      HttpsGet linux_info_url;
      Spinner (cross_mark +:+ "Checking runtime… failed!") true;
      ConsoleError (SyntaxError "[object Object]") ] /\
  dist after = installed_X_Y.
Proof.
  intros after.
  destruct (readable_record_means_no_download linux_with_tarball linux_profile 5
              installed_X_Y linux_info_url
              (json_stringify EmptyString build_X_Y +:+ line_feed) build_X_Y)
    as (Htrace & Hdist & _).
  - reflexivity.
  - vm_compute. reflexivity.
  - vm_compute. reflexivity.
  - vm_compute. reflexivity.
  - split; [exact Htrace | exact Hdist].
Defined.




(** ** Runs of the second copy *)

Example second_copy_profile_resolved :
  exists s, Part000.prelude linux_with_tarball (initial_store ∅)
            = (Val second_copy_profile, s, []).
Proof. eexists. vm_compute. reflexivity. Qed.

Lemma part000_check_run (E : env) (pf : profile) (d : gmap string node)
    (url data : string) (old current : json) (r : response) :
  truthy_string (DOWNLOAD_INFO_URL pf) = Some url ->
  entry "firefox.json" d = Some (File data) ->
  JSON_parse E data = Some old ->
  http E url = Response r -> body_error r = None ->
  JSON_parse E (body r) = Some current ->
  left_behind (run 10 (observed (Part000.checkForUpdate E pf)) (at_line_103 d)) =
  ([ Spinner "  Checking runtime…" false; ReadFile (runtimeInfo pf); Request url ],
   d, Some ∅, None, false, Some current,
   fst (decided current old), snd (decided current old)).
Proof.
  destruct E as [os cpu dir tmpd parse ? web ? ? ? ? ? ? ? ?],
           pf as [pos info durl ddir idir rdir edir rinfo jar],
           r as [loc ct text err].
  cbn [DOWNLOAD_INFO_URL JSON_parse http runtimeInfo body body_error].
  intros (c & rest & -> & ->)%truthy_string_Some Hrecord Hold Hweb -> Hbody.
  unfold decided, run. compute_step. step_macro.
  rewrite Hrecord. compute_step. rewrite Hold. compute_step.
  step_macro. rewrite Hweb. compute_step. rewrite Hbody. compute_step.
  destruct (isUpToDate current old) as [[|]|e]; compute_step; [| |reflexivity];
    step_micro; step_idle; reflexivity.
Qed.

(** X19: in the second copy, once the record and the metadata are read and
    parsed, the check is fulfilled with [true] when the comparison says so
    and with undefined when it does not; when the comparison throws (one of
    the documents is [null]) the TypeError is raised in the callback of the
    request, where nothing catches it, and ends the process. *)
Theorem part000_check_compares_the_descriptors (E : env) (pf : profile)
    (d : gmap string node) (url data : string) (old current : json) (r : response) :
  truthy_string (DOWNLOAD_INFO_URL pf) = Some url ->
  entry "firefox.json" d = Some (File data) ->
  JSON_parse E data = Some old ->
  http E url = Response r -> body_error r = None ->
  JSON_parse E (body r) = Some current ->
  let after := run 10 (observed (Part000.checkForUpdate E pf)) (at_line_103 d) in
  trace after = [ Spinner "  Checking runtime…" false; ReadFile (runtimeInfo pf); Request url ] /\
  currentBrowserInfo after = Some current /\
  match isUpToDate current old with
  | Normal true => probe after = Some (Fulfilled (VBool true)) /\ status after = Some Drained
  | Normal false => probe after = Some (Fulfilled VUndefined) /\ status after = Some Drained
  | Throw e => probe after = None /\ status after = Some (Uncaught e)
  end.
Proof.
  intros Hurl Hrecord Hold Hweb Herr Hbody after.
  pose proof (part000_check_run E pf d url data old current r Hurl Hrecord Hold Hweb Herr Hbody)
    as Hrun.
  fold after in Hrun. unfold left_behind, decided in Hrun.
  injection Hrun as Htrace _ _ _ _ Hinfo Hstatus Hprobe.
  split; [exact Htrace|]. split; [exact Hinfo|].
  by destruct (isUpToDate current old) as [[|]|e].
Qed.

(** X19, an instance: the record and the metadata both describe build X. *)
Lemma part000_check_compares_the_descriptors_witness :
  let after := run 10 (observed (Part000.checkForUpdate linux_with_tarball second_copy_profile))
                 (at_line_103 recorded_X_Y) in
  probe after = Some (Fulfilled (VBool true)) /\ status after = Some Drained.
Proof.
  intros after.
  exact (proj2 (proj2 (part000_check_compares_the_descriptors linux_with_tarball
                         second_copy_profile recorded_X_Y linux_info_url
                         (json_stringify EmptyString build_X_Y +:+ line_feed)
                         build_X_Y build_X_Y
                         (plain_response (json_stringify EmptyString build_X_Y))
                         eq_refl eq_refl eq_refl eq_refl eq_refl eq_refl))).
Defined.

Lemma part000_request_error_run (E : env) (pf : profile) (d : gmap string node)
    (url : string) (old : json) (e : error) :
  truthy_string (DOWNLOAD_INFO_URL pf) = Some url ->
  JSON_parse E (stored_text "firefox.json" d) = Some old ->
  request_error (http E url) = Some e ->
  JSON_parse E "undefined" = None ->
  left_behind (run 10 (observed (Part000.checkForUpdate E pf)) (at_line_103 d)) =
  ((Spinner "  Checking runtime…" false :: ReadFile (runtimeInfo pf)
    :: read_warning "firefox.json" (runtimeInfo pf) d ++
    [ Request url; ConsoleWarn e ])%list,
   d, Some ∅, None, false, None,
   Some (Uncaught (SyntaxError "undefined")), None).
Proof.
  destruct E as [os cpu dir tmpd parse ? web ? ? ? ? ? ? ? ?],
           pf as [pos info durl ddir idir rdir edir rinfo jar].
  cbn [DOWNLOAD_INFO_URL JSON_parse http runtimeInfo].
  unfold stored_text, read_warning, request_error.
  intros (c & rest & -> & ->)%truthy_string_Some Hold Hweb Hundefined.
  unfold run. compute_step. step_macro.
  destruct (entry "firefox.json" d) as [[data|files]|]; compute_step;
    rewrite Hold; compute_step; step_macro;
    (destruct (web (String c rest)) as [[loc ct text err]|e'];
     cbn [body_error] in Hweb; [subst err|injection Hweb as ->]; compute_step;
     rewrite Hundefined; reflexivity).
Qed.

(** X20: in the second copy a metadata request that fails is fatal: the
    callback logs the error and resolves the promise, then goes on to parse
    the missing body; JSON.parse(undefined) throws in the callback of the
    request and the process ends with the uncaught SyntaxError, before the
    callback chained on the check has run. *)
Theorem part000_failed_request_ends_the_process (E : env) (pf : profile)
    (d : gmap string node) (url : string) (old : json) (e : error) :
  truthy_string (DOWNLOAD_INFO_URL pf) = Some url ->
  JSON_parse E (stored_text "firefox.json" d) = Some old ->
  request_error (http E url) = Some e ->
  JSON_parse E "undefined" = None ->
  let after := run 10 (observed (Part000.checkForUpdate E pf)) (at_line_103 d) in
  status after = Some (Uncaught (SyntaxError "undefined")) /\
  probe after = None /\
  trace after =
    (Spinner "  Checking runtime…" false :: ReadFile (runtimeInfo pf)
     :: read_warning "firefox.json" (runtimeInfo pf) d ++
     [ Request url; ConsoleWarn e ])%list.
Proof.
  intros Hurl Hold Hweb Hundefined after.
  pose proof (part000_request_error_run E pf d url old e Hurl Hold Hweb Hundefined) as Hrun.
  fold after in Hrun. unfold left_behind in Hrun.
  injection Hrun as Htrace _ _ _ _ _ Hstatus Hprobe.
  by repeat split.
Qed.

(** X20, an instance: the host of the metadata cannot be found. *)
Lemma part000_failed_request_ends_the_process_witness :
  let after := run 10 (observed (Part000.checkForUpdate (sample_env "linux" "x64" mirror_web)
                                   second_copy_profile))
                 (at_line_103 recorded_X_Y) in
  status after = Some (Uncaught (SyntaxError "undefined")) /\
  trace after =
    [ Spinner "  Checking runtime…" false; ReadFile ["qbrt"; "dist"; "firefox.json"];
      Request linux_info_url; ConsoleWarn (SystemError "ENOTFOUND" linux_info_url) ].
Proof.
  intros after.
  destruct (part000_failed_request_ends_the_process (sample_env "linux" "x64" mirror_web)
              second_copy_profile recorded_X_Y linux_info_url build_X_Y
              (SystemError "ENOTFOUND" linux_info_url) eq_refl eq_refl eq_refl eq_refl)
    as (Hstatus & _ & Htrace).
  split; [exact Hstatus | exact Htrace].
Defined.




(** X22: in both scripts a version record that is read but that JSON.parse
    refuses ends the process: the SyntaxError is thrown in the callback of
    fs.readFile, outside any promise, before a request is made and with the
    check still pending. *)
Theorem unparsable_record_ends_the_process (E : env) (pf : profile) (d : gmap string node)
    (url data : string) :
  truthy_string (DOWNLOAD_INFO_URL pf) = Some url ->
  JSON_parse E data = None ->
  (entry "runtime-info.json" d = Some (File data) ->
   let after := run 10 (observed (Postinstall.checkForUpdate E pf)) (at_line_100 d) in
   status after = Some (Uncaught (SyntaxError data)) /\
   trace after = [ Spinner "  Checking runtime…" false; ReadFile (runtimeInfo pf) ] /\
   probe after = None) /\
  (entry "firefox.json" d = Some (File data) ->
   let after := run 10 (observed (Part000.checkForUpdate E pf)) (at_line_103 d) in
   status after = Some (Uncaught (SyntaxError data)) /\
   trace after = [ Spinner "  Checking runtime…" false; ReadFile (runtimeInfo pf) ] /\
   probe after = None).
Proof.
  destruct E as [os cpu dir tmpd parse ? web ? ? ? ? ? ? ? ?],
           pf as [pos info durl ddir idir rdir edir rinfo jar].
  cbn [DOWNLOAD_INFO_URL JSON_parse runtimeInfo].
  intros (c & rest & -> & ->)%truthy_string_Some Hdata.
  split; intros Hrecord; cbv zeta.
  - unfold run. rewrite checkForUpdate_unfold. compute_step. step_on.
    rewrite Hrecord. compute_step. unfold on_record. compute_step.
    rewrite Hdata. compute_step. by repeat split.
  - unfold run. compute_step. step_on. rewrite Hrecord. compute_step.
    rewrite Hdata. compute_step. by repeat split.
Qed.

(** X22, an instance: a record that holds no JSON. *)
Lemma unparsable_record_ends_the_process_witness :
  status (run 10 (observed (Postinstall.checkForUpdate linux_with_tarball linux_profile))
            (at_line_100 garbled_record))
  = Some (Uncaught (SyntaxError "not json")).
Proof.
  exact (proj1 (proj1 (unparsable_record_ends_the_process linux_with_tarball linux_profile
                         garbled_record linux_info_url "not json" eq_refl eq_refl)
                  eq_refl)).
Defined.
